(** * eaux: [Maybe] and [Result]

    A shallow embedding of [src/maybe.ts], [src/result.ts],
    [src/utilities/assert.ts] and [src/utilities/node-js-util-inspect.ts],
    and the properties of the two containers proved over it.

    The library is written in TypeScript, but every check it performs is
    a run-time check on untyped JavaScript values ([typeof], [instanceof],
    [!== null]).  The embedding therefore works over a universe of
    JavaScript values, so that both well-typed and ill-typed calls can be
    run through the code. *)

From Stdlib Require Import String Ascii List ZArith Bool Lia.
From Stdlib Require DecimalString.
Import ListNotations.
Local Open Scope string_scope.

Set Implicit Arguments.

(** ** JavaScript values *)

(** Function objects are references into the table of function bodies of
    the realm (see [Realm] below).  [JsNumber n] is the number [n] for
    [n] a safe integer (below 2^53 in absolute value).  A [string] is a
    sequence of code units below 256.  A symbol is known by its
    description.  Objects other than functions and the two containers
    are not part of the universe. *)
Inductive js_value : Type :=
| JsUndefined
| JsNull
| JsBoolean (b : bool)
| JsNumber (n : Z)
| JsString (s : string)
| JsSymbol (description : string)
| JsFunction (ref : nat)
| JsMaybe (m : Maybe)
| JsResult (r : Result)

(** [abstract class Maybe<TValue>] with its two subclasses. *)
with Maybe : Type :=
| Something (value : js_value)
| Nothing

(** [abstract class Result<TValue, TError>] with its two subclasses. *)
with Result : Type :=
| Failure (error : js_value)
| Success (value : js_value).

(** The [typeof] operator. *)
Definition typeof (v : js_value) : string :=
  match v with
  | JsUndefined => "undefined"
  | JsNull => "object"
  | JsBoolean _ => "boolean"
  | JsNumber _ => "number"
  | JsString _ => "string"
  | JsSymbol _ => "symbol"
  | JsFunction _ => "function"
  | JsMaybe _ => "object"
  | JsResult _ => "object"
  end.

(** [v === null]. *)
Definition is_null (v : js_value) : bool :=
  match v with JsNull => true | _ => false end.

(** ToBoolean, as applied by the conditional operator. *)
Definition truthy (v : js_value) : bool :=
  match v with
  | JsUndefined | JsNull => false
  | JsBoolean b => b
  | JsNumber n => negb (Z.eqb n 0)
  | JsString s => negb (String.eqb s "")
  | JsSymbol _ | JsFunction _ | JsMaybe _ | JsResult _ => true
  end.

(** An error value is absent when it is [undefined] or [null]. *)
Definition absent (v : js_value) : bool :=
  match v with JsUndefined | JsNull => true | _ => false end.

(** ** Exceptions *)

(** Modelled from the spec: the three error classes of [src/error/]
    ([expectation.ts], [improper-unwrap.ts], [unreachable-code.ts]) are
    not part of the sources at hand.  Each is an error kind of its own
    that carries the message it was constructed with, verbatim.
    [AssertionError] is what [ok] of [node:assert/strict] throws,
    [TypeError] what calling a non-function throws, and [Raised] stands
    for any other value thrown by a caller-supplied callback. *)
Inductive js_error : Type :=
| ExpectationError (message : js_value)
| ImproperUnwrapError (message : string)
| UnreachableCodeError (message : string)
| AssertionError
| TypeError
| Raised (v : js_value).

Inductive outcome (A : Type) : Type :=
| Returned (a : A)
| Thrown (e : js_error).
Arguments Thrown {A} e.

(** ** The realm, the world and the monad of library code *)

Section Runtime.

(** The state that caller-supplied callbacks may read and write. *)
Context {U : Type}.

(** What the host provides: whether the two dynamic imports succeed,
    the host's [util.inspect], the string coercion of template literals
    on every value but a symbol, and the body of every function object.
    The coercion writes a primitive as the language does; on an object
    it runs the object's own [toString], which may be code of the
    caller: it can change the callbacks' state and it can throw. *)
Record Realm : Type := {
  assert_module_loads : bool;
  util_module_loads : bool;
  util_inspect : js_value -> string;
  ToString : js_value -> U -> outcome string * U;
  function_body : nat -> js_value -> U -> outcome js_value * U
}.

(** The world threaded through a computation: the record of every call
    the library made to a function object, in program order, and the
    callbacks' own state. *)
Record World : Type := {
  calls : list (nat * js_value);
  store : U
}.

Definition M (A : Type) : Type := Realm -> World -> outcome A * World.

Definition ret {A} (a : A) : M A := fun _ w => (Returned a, w).

Definition throw {A} (e : js_error) : M A := fun _ w => (Thrown e, w).

Definition bind {A B} (m : M A) (k : A -> M B) : M B :=
  fun realm w =>
    match m realm w with
    | (Returned a, w') => k a realm w'
    | (Thrown e, w') => (Thrown e, w')
    end.

(** [f(arg)]: the call is recorded, then the body runs. *)
Definition js_call (f arg : js_value) : M js_value :=
  fun realm w =>
    match f with
    | JsFunction ref =>
        let (o, u) := function_body realm ref arg (store w) in
        (o, {| calls := calls w ++ [(ref, arg)]; store := u |})
    | _ => (Thrown TypeError, w)
    end.

(** [`${value}`]: the string coercion of a template literal.  On a
    symbol it throws [TypeError]; on anything else the host's coercion
    runs. *)
Definition js_ToString (value : js_value) : M string :=
  fun realm w =>
    match value with
    | JsSymbol _ => (Thrown TypeError, w)
    | _ =>
        let (o, u) := ToString realm value (store w) in
        (o, {| calls := calls w; store := u |})
    end.

End Runtime.

Arguments Realm U : clear implicits.
Arguments World U : clear implicits.
Arguments M U A : clear implicits.

Declare Scope js_scope.
Delimit Scope js_scope with js.
Notation "x <- m ;; k" := (bind m (fun x => k))
  (at level 61, m at next level, right associativity) : js_scope.
Notation "m ;; k" := (bind m (fun _ => k))
  (at level 61, right associativity) : js_scope.
Local Open Scope js_scope.

(** ** [src/utilities/assert.ts] *)

Section Utilities.

Context {U : Type}.

(** [ok] of [node:assert/strict]. *)
Definition node_assert_ok (value : bool) : M U unit :=
  if value then ret tt else throw AssertionError.

(** [assert]: [ok] when the module could be imported, and the empty
    function when the import failed. *)
Definition assert (value : bool) : M U unit :=
  fun realm =>
    (if assert_module_loads realm
     then node_assert_ok value
     else ret tt) realm.

(** ** [src/utilities/node-js-util-inspect.ts] *)

(** [inspect]: the host's [util.inspect] when [node:util] could be
    imported, and the function returning the empty string otherwise. *)
Definition nodeJsUtilInspect (realm : Realm U) (value : js_value) : string :=
  if util_module_loads realm then util_inspect realm value else "".

End Utilities.

(** ** String operations used by the renderers *)

Definition LF : ascii := "010"%char.

(** WhiteSpace and LineTerminator code units below 256: TAB, LF, VT, FF,
    CR, SP and NBSP. *)
Definition white_space : list ascii :=
  ["009"; "010"; "011"; "012"; "013"; "032"; "160"]%char.

Definition is_white_space (c : ascii) : bool :=
  existsb (Ascii.eqb c) white_space.

(** [s.split(sep)] for a one-character separator. *)
Fixpoint split (sep : ascii) (s : string) : list string :=
  match s with
  | EmptyString => [EmptyString]
  | String c s' =>
      if Ascii.eqb c sep then EmptyString :: split sep s'
      else match split sep s' with
           | [] => [String c EmptyString]
           | piece :: pieces => String c piece :: pieces
           end
  end.

(** [pieces.join(sep)]. *)
Definition join (sep : ascii) (pieces : list string) : string :=
  String.concat (String sep EmptyString) pieces.

Fixpoint trimStart (s : string) : string :=
  match s with
  | EmptyString => EmptyString
  | String c s' => if is_white_space c then trimStart s' else s
  end.

Fixpoint trimEnd (s : string) : string :=
  match s with
  | EmptyString => EmptyString
  | String c s' =>
      match trimEnd s' with
      | EmptyString => if is_white_space c then EmptyString
                       else String c EmptyString
      | t => String c t
      end
  end.

Definition trim (s : string) : string := trimEnd (trimStart s).

(** ** [src/maybe.ts] and [src/result.ts] *)

Section Classes.

Context {U : Type}.

(** *** Static members and factory functions *)

(** [Nothing.#instance], created once by the static initialiser. *)
Definition Nothing_instance : Maybe := Nothing.

Definition Nothing_make : Maybe := Nothing_instance.

Definition Something_make (value : js_value) : Maybe := Something value.

Definition Failure_make (error : js_value) : Result := Failure error.

Definition Success_make (value : js_value) : Result := Success value.

Definition isMaybe (value : js_value) : bool :=
  match value with JsMaybe _ => true | _ => false end.

Definition nothing : Maybe := Nothing_make.

Definition something (value : js_value) : Maybe := Something_make value.

Definition isResult (value : js_value) : bool :=
  match value with JsResult _ => true | _ => false end.

Definition failure (error : js_value) : M U Result :=
  assert (negb (String.eqb (typeof error) "undefined")) ;;
  assert (negb (is_null error)) ;;
  ret (Failure_make error).

Definition success (value : js_value) : Result := Success_make value.

(** *** [class Nothing] *)

Definition Nothing__and : js_value := JsMaybe Nothing_instance.

Definition Nothing__andThen : M U js_value := ret (JsMaybe Nothing_instance).

Definition Nothing__expect (message : js_value) : M U js_value :=
  throw (ExpectationError message).

Definition Nothing__filter : M U Maybe := ret Nothing_instance.

Definition Nothing__getSuccessOr (error : js_value) : M U Result :=
  failure error.

Definition Nothing__inspect : M U Maybe := ret Nothing_instance.

Definition Nothing__isNothing : bool := true.

Definition Nothing__isNothingOr : M U js_value := ret (JsBoolean true).

Definition Nothing__isSomething : bool := false.

Definition Nothing__isSomethingAnd : M U js_value := ret (JsBoolean false).

Definition Nothing__map : M U Maybe := ret Nothing_instance.

Definition Nothing__or (other : js_value) : js_value := other.

Definition Nothing__unwrap : M U js_value :=
  throw (ImproperUnwrapError "Attempted to unwrap a `Nothing` value").

(** *** [class Something]; [value] is the private field [#value]. *)

Definition Something__and (value other : js_value) : js_value := other.

Definition Something__andThen (value f : js_value) : M U js_value :=
  js_call f value.

Definition Something__expect (value : js_value) : M U js_value := ret value.

Definition Something__filter (value predicate : js_value) : M U Maybe :=
  satisfied <- js_call predicate value ;;
  ret (if truthy satisfied then Something value else Nothing_make).

Definition Something__getSuccessOr (value : js_value) : M U Result :=
  ret (success value).

Definition Something__inspect (value f : js_value) : M U Maybe :=
  js_call f value ;;
  ret (Something value).

Definition Something__isNothing (value : js_value) : bool := false.

Definition Something__isNothingOr (value predicate : js_value) : M U js_value :=
  js_call predicate value.

Definition Something__isSomething (value : js_value) : bool := true.

Definition Something__isSomethingAnd (value predicate : js_value)
  : M U js_value :=
  js_call predicate value.

Definition Something__map (value f : js_value) : M U Maybe :=
  value' <- js_call f value ;;
  ret (Something_make value').

Definition Something__or (value : js_value) : js_value :=
  JsMaybe (Something value).

Definition Something__unwrap (value : js_value) : M U js_value := ret value.

(** *** [abstract class Maybe]: the public methods, each delegating to
    the protected method of the receiver's class. *)

Definition Maybe_and (this : Maybe) (other : js_value) : js_value :=
  match this with
  | Something value => Something__and value other
  | Nothing => Nothing__and
  end.

Definition Maybe_andThen (this : Maybe) (f : js_value) : M U js_value :=
  match this with
  | Something value => Something__andThen value f
  | Nothing => Nothing__andThen
  end.

Definition Maybe_expect (this : Maybe) (message : js_value) : M U js_value :=
  match this with
  | Something value => Something__expect value
  | Nothing => Nothing__expect message
  end.

Definition Maybe_filter (this : Maybe) (predicate : js_value) : M U Maybe :=
  match this with
  | Something value => Something__filter value predicate
  | Nothing => Nothing__filter
  end.

Definition Maybe_getSuccessOr (this : Maybe) (error : js_value) : M U Result :=
  match this with
  | Something value => Something__getSuccessOr value
  | Nothing => Nothing__getSuccessOr error
  end.

Definition Maybe_inspect (this : Maybe) (f : js_value) : M U Maybe :=
  match this with
  | Something value => Something__inspect value f
  | Nothing => Nothing__inspect
  end.

Definition Maybe_isNothing (this : Maybe) : bool :=
  match this with
  | Something value => Something__isNothing value
  | Nothing => Nothing__isNothing
  end.

Definition Maybe_isNothingOr (this : Maybe) (predicate : js_value)
  : M U js_value :=
  match this with
  | Something value => Something__isNothingOr value predicate
  | Nothing => Nothing__isNothingOr
  end.

Definition Maybe_isSomething (this : Maybe) : bool :=
  match this with
  | Something value => Something__isSomething value
  | Nothing => Nothing__isSomething
  end.

Definition Maybe_isSomethingAnd (this : Maybe) (predicate : js_value)
  : M U js_value :=
  match this with
  | Something value => Something__isSomethingAnd value predicate
  | Nothing => Nothing__isSomethingAnd
  end.

Definition Maybe_map (this : Maybe) (f : js_value) : M U Maybe :=
  match this with
  | Something value => Something__map value f
  | Nothing => Nothing__map
  end.

Definition Maybe_or (this : Maybe) (other : js_value) : js_value :=
  match this with
  | Something value => Something__or value
  | Nothing => Nothing__or other
  end.

Definition Maybe_unwrap (this : Maybe) : M U js_value :=
  match this with
  | Something value => Something__unwrap value
  | Nothing => Nothing__unwrap
  end.

Definition Maybe_toString (this : Maybe) : M U string :=
  if Maybe_isSomething this then
    value <- Maybe_unwrap this ;;
    valueString <- js_ToString value ;;
    ret ("Maybe{ Something{ value: " ++ valueString ++ " } }")
  else if Maybe_isNothing this then
    ret "Maybe{ Nothing }"
  else
    throw (UnreachableCodeError "Reached an unreachable code path").

(** [Maybe.prototype[util.inspect.custom]]: the template literal of the
    receiver, which is its [toString()]. *)
Definition Maybe_inspect_custom (this : Maybe) : M U string :=
  Maybe_toString this.

(** *** [class Failure]; [error] is the private field [#error]. *)

Definition Failure__and (error : js_value) : js_value :=
  JsResult (Failure error).

Definition Failure__andThen (error : js_value) : M U js_value :=
  ret (JsResult (Failure error)).

Definition Failure__expect (error message : js_value) : M U js_value :=
  throw (ExpectationError message).

Definition Failure__expectFailure (error : js_value) : M U js_value :=
  ret error.

Definition Failure__getFailure (error : js_value) : Maybe := something error.

Definition Failure__getSuccess (error : js_value) : Maybe := nothing.

Definition Failure__inspect (error : js_value) : M U Result :=
  ret (Failure error).

Definition Failure__inspectFailure (error f : js_value) : M U Result :=
  js_call f error ;;
  ret (Failure error).

Definition Failure__isFailure (error : js_value) : bool := true.

Definition Failure__isFailureAnd (error predicate : js_value)
  : M U js_value :=
  isSatified <- js_call predicate error ;;
  assert (String.eqb (typeof isSatified) "boolean") ;;
  ret isSatified.

Definition Failure__isSuccess (error : js_value) : bool := false.

Definition Failure__isSuccessAnd (error : js_value) : M U js_value :=
  ret (JsBoolean false).

Definition Failure__map (error : js_value) : M U Result :=
  ret (Failure error).

Definition Failure__mapFailure (error f : js_value) : M U Result :=
  error' <- js_call f error ;;
  assert (negb (String.eqb (typeof error') "undefined")) ;;
  assert (negb (is_null error')) ;;
  ret (Failure_make error').

Definition Failure__or (error other : js_value) : js_value := other.

Definition Failure__unwrap (error : js_value) : M U js_value :=
  throw (ImproperUnwrapError "Attempted to unwrap a `Failure` value").

Definition Failure__unwrapFailure (error : js_value) : M U js_value :=
  ret error.

(** *** [class Success]; [value] is the private field [#value]. *)

Definition Success__and (value other : js_value) : js_value := other.

Definition Success__andThen (value f : js_value) : M U js_value :=
  value' <- js_call f value ;;
  assert (isResult value') ;;
  ret value'.

Definition Success__expect (value : js_value) : M U js_value := ret value.

Definition Success__expectFailure (value message : js_value)
  : M U js_value :=
  throw (ExpectationError message).

Definition Success__getFailure (value : js_value) : Maybe := nothing.

Definition Success__getSuccess (value : js_value) : Maybe := something value.

Definition Success__inspect (value f : js_value) : M U Result :=
  js_call f value ;;
  ret (Success value).

Definition Success__inspectFailure (value : js_value) : M U Result :=
  ret (Success value).

Definition Success__isFailure (value : js_value) : bool := false.

Definition Success__isFailureAnd (value : js_value) : M U js_value :=
  ret (JsBoolean false).

Definition Success__isSuccess (value : js_value) : bool := true.

Definition Success__isSuccessAnd (value predicate : js_value)
  : M U js_value :=
  isSatified <- js_call predicate value ;;
  assert (String.eqb (typeof isSatified) "boolean") ;;
  ret isSatified.

Definition Success__map (value f : js_value) : M U Result :=
  value' <- js_call f value ;;
  ret (Success_make value').

Definition Success__mapFailure (value : js_value) : M U Result :=
  ret (Success value).

Definition Success__or (value : js_value) : js_value :=
  JsResult (Success value).

Definition Success__unwrap (value : js_value) : M U js_value := ret value.

Definition Success__unwrapFailure (value : js_value) : M U js_value :=
  throw (ImproperUnwrapError "Attempted to unwrap a `Success` value").

(** *** [abstract class Result]: the public methods.  Each runs its
    assertions and then delegates to the protected method of the
    receiver's class. *)

Definition Result_and (this : Result) (other : js_value) : M U js_value :=
  assert (isResult other) ;;
  ret (match this with
       | Failure error => Failure__and error
       | Success value => Success__and value other
       end).

Definition Result_andThen (this : Result) (f : js_value) : M U js_value :=
  assert (String.eqb (typeof f) "function") ;;
  match this with
  | Failure error => Failure__andThen error
  | Success value => Success__andThen value f
  end.

Definition Result_expect (this : Result) (message : js_value)
  : M U js_value :=
  assert (String.eqb (typeof message) "string") ;;
  match this with
  | Failure error => Failure__expect error message
  | Success value => Success__expect value
  end.

Definition Result_expectFailure (this : Result) (message : js_value)
  : M U js_value :=
  assert (String.eqb (typeof message) "string") ;;
  match this with
  | Failure error => Failure__expectFailure error
  | Success value => Success__expectFailure value message
  end.

Definition Result_getFailure (this : Result) : Maybe :=
  match this with
  | Failure error => Failure__getFailure error
  | Success value => Success__getFailure value
  end.

Definition Result_getSuccess (this : Result) : Maybe :=
  match this with
  | Failure error => Failure__getSuccess error
  | Success value => Success__getSuccess value
  end.

Definition Result_inspect (this : Result) (f : js_value) : M U Result :=
  assert (String.eqb (typeof f) "function") ;;
  match this with
  | Failure error => Failure__inspect error
  | Success value => Success__inspect value f
  end.

Definition Result_inspectFailure (this : Result) (f : js_value)
  : M U Result :=
  assert (String.eqb (typeof f) "function") ;;
  match this with
  | Failure error => Failure__inspectFailure error f
  | Success value => Success__inspectFailure value
  end.

Definition Result_isFailure (this : Result) : bool :=
  match this with
  | Failure error => Failure__isFailure error
  | Success value => Success__isFailure value
  end.

Definition Result_isFailureAnd (this : Result) (predicate : js_value)
  : M U js_value :=
  assert (String.eqb (typeof predicate) "function") ;;
  match this with
  | Failure error => Failure__isFailureAnd error predicate
  | Success value => Success__isFailureAnd value
  end.

Definition Result_isSuccess (this : Result) : bool :=
  match this with
  | Failure error => Failure__isSuccess error
  | Success value => Success__isSuccess value
  end.

Definition Result_isSuccessAnd (this : Result) (predicate : js_value)
  : M U js_value :=
  assert (String.eqb (typeof predicate) "function") ;;
  match this with
  | Failure error => Failure__isSuccessAnd error
  | Success value => Success__isSuccessAnd value predicate
  end.

Definition Result_map (this : Result) (f : js_value) : M U Result :=
  assert (String.eqb (typeof f) "function") ;;
  match this with
  | Failure error => Failure__map error
  | Success value => Success__map value f
  end.

Definition Result_mapFailure (this : Result) (f : js_value) : M U Result :=
  assert (String.eqb (typeof f) "function") ;;
  match this with
  | Failure error => Failure__mapFailure error f
  | Success value => Success__mapFailure value
  end.

Definition Result_or (this : Result) (other : js_value) : M U js_value :=
  assert (isResult other) ;;
  ret (match this with
       | Failure error => Failure__or error other
       | Success value => Success__or value
       end).

Definition Result_unwrap (this : Result) : M U js_value :=
  match this with
  | Failure error => Failure__unwrap error
  | Success value => Success__unwrap value
  end.

Definition Result_unwrapFailure (this : Result) : M U js_value :=
  match this with
  | Failure error => Failure__unwrapFailure error
  | Success value => Success__unwrapFailure value
  end.

(** The lines of [s], each behind four spaces, joined again, with the
    white space in front of the first one removed. *)
Definition indented (s : string) : string :=
  trimStart (join LF (map (fun line => "    " ++ line) (split LF s))).

(** The two template literals of [#convertToString], before [.trim()]. *)
Definition success_template (valueString : string) : string :=
  String LF "Result{" ++ String LF "  Success{" ++
  String LF "    value: " ++ valueString ++ "," ++
  String LF "  }" ++ String LF "}" ++ String LF "        ".

Definition failure_template (errorString : string) : string :=
  String LF "Result{" ++ String LF "  Failure{" ++
  String LF "    error: " ++ errorString ++ "," ++
  String LF "  }" ++ String LF "}" ++ String LF "        ".

(** [Result.prototype.#convertToString], for any stringifier: one that
    may throw and may change the callbacks' state. *)
Definition Result_convertToString_by (this : Result)
    (toStringFunction : js_value -> M U string) : M U string :=
  if Result_isSuccess this then
    value <- Result_unwrap this ;;
    rendering <- toStringFunction value ;;
    let valueString := indented rendering in
    ret (trim (success_template valueString))
  else if Result_isFailure this then
    error <- Result_unwrapFailure this ;;
    rendering <- toStringFunction error ;;
    let errorString := indented rendering in
    ret (trim (failure_template errorString))
  else
    throw (UnreachableCodeError "Reached an unreachable code path").

(** [#convertToString] for a stringifier that returns on every value
    and has no effect, as [util.inspect] is taken to be. *)
Definition Result_convertToString (this : Result)
    (toStringFunction : js_value -> string) : M U string :=
  Result_convertToString_by this
    (fun value => ret (toStringFunction value)).

(** [toString()]: the stringifier is [(value) => `${value}`]. *)
Definition Result_toString (this : Result) : M U string :=
  Result_convertToString_by this (fun value => js_ToString value).

(** [Result.prototype[customNodeJsUtilInspectSymbol]]. *)
Definition Result_inspect_custom (this : Result) : M U string :=
  fun realm =>
    Result_convertToString this
      (fun value => nodeJsUtilInspect realm value) realm.

End Classes.

(** ** Two concrete hosts *)

(** The string coercion of a template literal on the values of the
    universe, as Node.js makes it.  Containers are coerced through
    their own [toString]; a symbol, also inside a container, makes the
    coercion throw.  The function objects of the example hosts are
    bound functions, whose source text the language does not show. *)
Fixpoint template_string (v : js_value) : outcome string :=
  match v with
  | JsUndefined => Returned "undefined"
  | JsNull => Returned "null"
  | JsBoolean b => Returned (if b then "true" else "false")
  | JsNumber n =>
      Returned (DecimalString.NilZero.string_of_int (Z.to_int n))
  | JsString s => Returned s
  | JsSymbol _ => Thrown TypeError
  | JsFunction _ => Returned "function () { [native code] }"
  | JsMaybe m =>
      match m with
      | Something value =>
          match template_string value with
          | Returned s =>
              Returned ("Maybe{ Something{ value: " ++ s ++ " } }")
          | Thrown e => Thrown e
          end
      | Nothing => Returned "Maybe{ Nothing }"
      end
  | JsResult r =>
      match r with
      | Success value =>
          match template_string value with
          | Returned s => Returned (trim (success_template (indented s)))
          | Thrown e => Thrown e
          end
      | Failure error =>
          match template_string error with
          | Returned s => Returned (trim (failure_template (indented s)))
          | Thrown e => Thrown e
          end
      end
  end.

(** [ToString] of the example hosts: no state is touched. *)
Definition node_ToString (v : js_value) (u : Z) : outcome string * Z :=
  (template_string v, u).

(** A string between single quotes, as [util.inspect] shows one that
    holds no quote, no backslash and no control character. *)
Definition quoted (s : string) : string := "'" ++ s ++ "'".

(** [util.inspect] of the example hosts.  It stands for that of Node.js
    on [undefined], [null], booleans, safe integers, symbols, strings
    as [quoted] takes them, and containers of values whose coercion
    returns; a container is shown by its own hook. *)
Fixpoint node_inspect (v : js_value) : string :=
  match v with
  | JsUndefined => "undefined"
  | JsNull => "null"
  | JsBoolean b => if b then "true" else "false"
  | JsNumber n => DecimalString.NilZero.string_of_int (Z.to_int n)
  | JsString s => quoted s
  | JsSymbol description => "Symbol(" ++ description ++ ")"
  | JsFunction _ => "[Function (anonymous)]"
  | JsMaybe m =>
      match template_string (JsMaybe m) with
      | Returned s => s
      | Thrown _ => EmptyString
      end
  | JsResult r =>
      match r with
      | Success value => trim (success_template (indented (node_inspect value)))
      | Failure error => trim (failure_template (indented (node_inspect error)))
      end
  end.

(** Some callbacks; the store they share is a counter.
    - 0: [x => x * 2]
    - 1: [x => undefined], a stub
    - 2: [x => x === 42]
    - 3: [x => success(x)]
    - 4: [x => { counter += 1; return x + 1 }]
    - 5: [x => f4(f0(x))]
    - 6: [x => { throw x }]
    Applied to anything but a number, 0 and 4 throw their argument. *)
Definition double (x : js_value) (u : Z) : outcome js_value * Z :=
  match x with
  | JsNumber n => (Returned (JsNumber (n * 2)), u)
  | _ => (Thrown (Raised x), u)
  end.

Definition counted_successor (x : js_value) (u : Z) : outcome js_value * Z :=
  match x with
  | JsNumber n => (Returned (JsNumber (n + 1)), u + 1)%Z
  | _ => (Thrown (Raised x), u)
  end.

(** The body of [x => g(f(x))], from the bodies of [f] and [g]. *)
Definition composed {U : Type}
    (f g : js_value -> U -> outcome js_value * U)
    (x : js_value) (u : U) : outcome js_value * U :=
  match f x u with
  | (Returned y, u') => g y u'
  | (Thrown e, u') => (Thrown e, u')
  end.

Definition example_functions (ref : nat) (x : js_value) (u : Z)
  : outcome js_value * Z :=
  match ref with
  | 0 => double x u
  | 1 => (Returned JsUndefined, u)
  | 2 => (Returned (JsBoolean match x with
                              | JsNumber n => Z.eqb n 42
                              | _ => false
                              end), u)
  | 3 => (Returned (JsResult (Success x)), u)
  | 4 => counted_successor x u
  | 5 => composed double counted_successor x u
  | _ => (Thrown (Raised x), u)
  end.

(** Node.js: both dynamic imports succeed. *)
Definition node_realm : Realm Z := {|
  assert_module_loads := true;
  util_module_loads := true;
  util_inspect := node_inspect;
  ToString := node_ToString;
  function_body := example_functions
|}.

(** A host that resolves [node:util] (which [maybe.ts] imports
    statically) but not [node:assert/strict]: the dynamic import in
    [utilities/assert.ts] fails and is caught. *)
Definition realm_without_assert : Realm Z := {|
  assert_module_loads := false;
  util_module_loads := true;
  util_inspect := node_inspect;
  ToString := node_ToString;
  function_body := example_functions
|}.

Definition initial_world : World Z := {| calls := []; store := 0%Z |}.

(** ** What a call of a callback leaves behind *)

Section Specification.

Context {U : Type}.

(** The world after the library called function [ref] on [arg]. *)
Definition world_after_call (realm : Realm U) (ref : nat) (arg : js_value)
    (w : World U) : World U :=
  {| calls := calls w ++ [(ref, arg)];
     store := snd (function_body realm ref arg (store w)) |}.

(** One call of [ref] on [arg], whose result is passed through [k]; what
    the callback throws is thrown on. *)
Definition call_then {A : Type} (realm : Realm U) (ref : nat)
    (arg : js_value) (w : World U) (k : js_value -> outcome A)
  : outcome A * World U :=
  (match fst (function_body realm ref arg (store w)) with
   | Returned r => k r
   | Thrown e => Thrown e
   end,
   world_after_call realm ref arg w).

(** [m] returns in world [w]. *)
Definition returns {A : Type} (m : M U A) (realm : Realm U) (w : World U)
  : Prop :=
  exists a w', m realm w = (Returned a, w').

(** [m] returns in world [w], or throws what the callback [ref] threw
    when called on [arg]: [m] raises nothing of its own. *)
Definition raises_nothing_of_its_own {A : Type} (m : M U A)
    (realm : Realm U) (w : World U) (ref : nat) (arg : js_value) : Prop :=
  match fst (m realm w) with
  | Returned _ => True
  | Thrown e => fst (function_body realm ref arg (store w)) = Thrown e
  end.

(** The documented return types of callbacks: whenever the function
    returns, it returns a value of the type. *)
Definition returns_a (T : js_value -> bool) (realm : Realm U) (ref : nat)
  : Prop :=
  forall arg u r u',
    function_body realm ref arg u = (Returned r, u') -> T r = true.

Definition is_boolean (v : js_value) : bool :=
  String.eqb (typeof v) "boolean".

End Specification.

(** The block that [Result.prototype.toString] lays out around the
    rendering of the payload:
<<
Result{
  Success{
    value: ...,
  }
}
>> *)
Definition success_block (valueString : string) : string :=
  "Result{" ++ String LF "  Success{" ++
  String LF "    value: " ++ valueString ++ "," ++
  String LF "  }" ++ String LF "}".

Definition failure_block (errorString : string) : string :=
  "Result{" ++ String LF "  Failure{" ++
  String LF "    error: " ++ errorString ++ "," ++
  String LF "  }" ++ String LF "}".

(** No line feed in [s]. *)
Fixpoint single_line (s : string) : bool :=
  match s with
  | EmptyString => true
  | String c s' => negb (Ascii.eqb c LF) && single_line s'
  end.

(** [s] does not begin with white space. *)
Definition flush_left (s : string) : bool :=
  match s with
  | EmptyString => true
  | String c _ => negb (is_white_space c)
  end.

(** ** Further vocabulary *)

(** [v] is neither [null] nor [undefined]. *)
Definition present (v : js_value) : bool := negb (absent v).

(** The error of a [Failure] is there. *)
Definition error_present (r : Result) : bool :=
  match r with
  | Failure error => present error
  | Success _ => true
  end.

(** Whatever [m] returns in world [w] satisfies [P]. *)
Definition returns_only {U A : Type} (P : A -> bool) (m : M U A)
    (realm : Realm U) (w : World U) : Prop :=
  match fst (m realm w) with
  | Returned a => P a = true
  | Thrown _ => True
  end.

(** The payload that a callback is called on, for the methods that call
    theirs on a [Something], on a [Success] and on a [Failure]. *)
Definition Maybe_payload (m : Maybe) : option js_value :=
  match m with Something value => Some value | Nothing => None end.

Definition Success_payload (r : Result) : option js_value :=
  match r with Success value => Some value | Failure _ => None end.

Definition Failure_payload (r : Result) : option js_value :=
  match r with Failure error => Some error | Success _ => None end.

(** The call that a method makes when handed [a] on a receiver with that
    payload: one, when there is a payload and [a] is a function. *)
Definition call_of (payload : option js_value) (a : js_value)
  : list (nat * js_value) :=
  match payload, a with
  | Some value, JsFunction f => [(f, value)]
  | _, _ => []
  end.

(** The callback returns a value of the type when called on [arg] in
    the world [w]: the documented return type, at the call that is
    made. *)
Definition returns_a_at {U : Type} (T : js_value -> bool) (realm : Realm U)
    (ref : nat) (arg : js_value) (w : World U) : Prop :=
  forall r u',
    function_body realm ref arg (store w) = (Returned r, u') -> T r = true.

(** [s] with four spaces put after each of its line feeds. *)
Fixpoint hanging (s : string) : string :=
  match s with
  | EmptyString => EmptyString
  | String c s' =>
      if Ascii.eqb c LF then String LF ("    " ++ hanging s')
      else String c (hanging s')
  end.

(** The string coercion of [value], whose result is passed through
    [k]; what the coercion throws is thrown on.  The record of calls is
    as it was. *)
Definition coerce_then {U : Type} (realm : Realm U) (value : js_value)
    (w : World U) (k : string -> string) : outcome string * World U :=
  (match fst (js_ToString value realm w) with
   | Returned s => Returned (k s)
   | Thrown e => Thrown e
   end,
   {| calls := calls w; store := store (snd (js_ToString value realm w)) |}).

(** The world after the library made the calls [cs], one after the
    other. *)
Definition world_after_calls {U : Type} (realm : Realm U) (w : World U)
    (cs : list (nat * js_value)) : World U :=
  fold_left (fun w' c => world_after_call realm (fst c) (snd c) w') cs w.

(** [s.split('\n').map((line) => `    ${line}`).join('\n')], the part
    of [indented] before [.trimStart()]. *)
Definition indent_lines (s : string) : string :=
  join LF (map (fun line => "    " ++ line) (split LF s)).

(** The body of [x => p(x) && q(x)]. *)
Definition and_also {U : Type}
    (p q : js_value -> U -> outcome js_value * U)
    (x : js_value) (u : U) : outcome js_value * U :=
  match p x u with
  | (Returned a, u') => if truthy a then q x u' else (Returned a, u')
  | (Thrown e, u') => (Thrown e, u')
  end.

(** The body of [x => wrap(f(x))], for [wrap] one of the factories. *)
Definition wrapped {U : Type} (wrap : js_value -> js_value)
    (f : js_value -> U -> outcome js_value * U)
    (x : js_value) (u : U) : outcome js_value * U :=
  match f x u with
  | (Returned r, u') => (Returned (wrap r), u')
  | (Thrown e, u') => (Thrown e, u')
  end.

(** More callbacks, beside those of [example_functions]:
    - 10: [x => something(x)]
    - 11: [x => x]
    - 12: [x => f11(x) && f2(x)]
    - 13: [x => something(f0(x))]
    - 14: [x => success(f0(x))]
    - 15: [e => "mapped"]
    - 16: [e => f3(f15(e))] *)
Definition more_functions (ref : nat) (x : js_value) (u : Z)
  : outcome js_value * Z :=
  match ref with
  | 10 => (Returned (JsMaybe (Something x)), u)
  | 11 => (Returned x, u)
  | 12 => and_also (fun y v => (Returned y, v)) (example_functions 2) x u
  | 13 => wrapped (fun r => JsMaybe (Something r)) double x u
  | 14 => wrapped (fun r => JsResult (Success r)) double x u
  | 15 => (Returned (JsString "mapped"), u)
  | 16 => composed (fun _ v => (Returned (JsString "mapped"), v))
            (example_functions 3) x u
  | _ => example_functions ref x u
  end.

(** Node.js again, with the longer table of callbacks. *)
Definition lab_realm : Realm Z := {|
  assert_module_loads := true;
  util_module_loads := true;
  util_inspect := node_inspect;
  ToString := node_ToString;
  function_body := more_functions
|}.

(** A host in which the dynamic import of [node:util] in
    [utilities/node-js-util-inspect.ts] is rejected. *)
Definition realm_without_util : Realm Z := {|
  assert_module_loads := true;
  util_module_loads := false;
  util_inspect := node_inspect;
  ToString := node_ToString;
  function_body := more_functions
|}.

(** * Properties *)

Ltac unfold_monad :=
  unfold bind, ret, throw, assert, node_assert_ok, js_call in *.

Section Factories.

Context {U : Type}.
Variable realm : Realm U.
Variable w : World U.

(** [failure] when the assertions are live: absent errors are thrown
    out, the others are stored. *)
Lemma failure_with_assert (error : js_value) :
  assert_module_loads realm = true ->
  failure error realm w =
    if absent error then (Thrown AssertionError, w)
    else (Returned (Failure error), w).
Proof.
  intros Hloads. unfold failure, Failure_make. unfold_monad.
  rewrite Hloads. destruct error; reflexivity.
Qed.

(** [failure] on an error that is there, in any host. *)
Lemma failure_present (error : js_value) :
  absent error = false ->
  failure error realm w = (Returned (Failure error), w).
Proof.
  intros Hpresent. unfold failure, Failure_make. unfold_monad.
  destruct (assert_module_loads realm);
    destruct error; try discriminate; reflexivity.
Qed.

(** [failure] when the assertions are the empty function. *)
Lemma failure_without_assert (error : js_value) :
  assert_module_loads realm = false ->
  failure error realm w = (Returned (Failure error), w).
Proof.
  intros Hloads. unfold failure, Failure_make. unfold_monad.
  rewrite Hloads. reflexivity.
Qed.

(** [failure] in every host. *)
Lemma failure_in_every_host (error : js_value) :
  failure error realm w =
    if assert_module_loads realm && absent error
    then (Thrown AssertionError, w)
    else (Returned (Failure error), w).
Proof.
  destruct (assert_module_loads realm) eqn:Hloads.
  - now rewrite failure_with_assert.
  - now rewrite failure_without_assert.
Qed.

(** C2, as amended: for every value [v], [something(v)] is a
    [Something] that is not a [Nothing] and unwraps to [v];
    [success(v)] is a [Success] whose [getSuccess()] unwraps to [v] and
    whose [getFailure()] is a [Nothing]; and [nothing()] is the
    [Nothing].  These three factories always produce their variant.
    The fourth, [failure(e)], produces a [Failure] of [e] or nothing at
    all: it throws when [e] is [null] or [undefined] and
    [node:assert/strict] loads, and produces the [Failure] otherwise;
    it never produces a [Success]. *)
Theorem factories_produce_their_variant (v e : js_value) :
  something v = Something v /\
  Maybe_isSomething (something v) = true /\
  Maybe_isNothing (something v) = false /\
  Maybe_unwrap (something v) realm w = (Returned v, w) /\
  nothing = Nothing /\
  Maybe_isNothing nothing = true /\
  Maybe_isSomething nothing = false /\
  success v = Success v /\
  Result_isSuccess (success v) = true /\
  Result_isFailure (success v) = false /\
  Maybe_unwrap (Result_getSuccess (success v)) realm w = (Returned v, w) /\
  Maybe_isNothing (Result_getFailure (success v)) = true /\
  failure e realm w =
    (if assert_module_loads realm && absent e
     then (Thrown AssertionError, w)
     else (Returned (Failure e), w)) /\
  returns_only Result_isFailure (failure e) realm w.
Proof.
  repeat split.
  - apply failure_in_every_host.
  - unfold returns_only. rewrite failure_in_every_host.
    destruct (assert_module_loads realm && absent e); [exact I|reflexivity].
Qed.

(** C1, as amended: in a host where [node:assert/strict] loads,
    [failure(e)] throws for an absent [e], leaving the world as it was,
    and builds [Failure(e)] otherwise, of which [getFailure().unwrap()]
    is [e] and [getSuccess().isNothing()] is true; and [mapFailure(f)]
    on [Failure(e)] calls [f] on [e] once, throws when the result is
    absent and builds the [Failure] of the result otherwise. *)
Theorem failure_rejects_absent_error
    (Hloads : assert_module_loads realm = true) :
  (forall e,
     failure e realm w =
       if absent e then (Thrown AssertionError, w)
       else (Returned (Failure e), w)) /\
  (forall e,
     (r <- failure e ;; Maybe_unwrap (Result_getFailure r)) realm w =
       if absent e then (Thrown AssertionError, w) else (Returned e, w)) /\
  (forall e,
     (r <- failure e ;; ret (Maybe_isNothing (Result_getSuccess r))) realm w =
       if absent e then (Thrown AssertionError, w) else (Returned true, w)) /\
  (forall e f,
     Result_mapFailure (Failure e) (JsFunction f) realm w =
       call_then realm f e w
         (fun e' => if absent e' then Thrown AssertionError
                    else Returned (Failure e'))).
Proof.
  repeat split; intros.
  - now apply failure_with_assert.
  - unfold bind at 1. rewrite failure_with_assert by assumption.
    destruct (absent e); reflexivity.
  - unfold bind at 1. rewrite failure_with_assert by assumption.
    destruct (absent e); reflexivity.
  - unfold Result_mapFailure, Failure__mapFailure, call_then,
      world_after_call, Failure_make.
    unfold_monad. rewrite Hloads. simpl.
    destruct (function_body realm f e (store w)) as [[e'|x] u]; simpl;
      [destruct e'|]; reflexivity.
Qed.

End Factories.

(** Witness of C1, in Node.js: [failure(undefined)] and [failure(null)]
    throw, [failure("boom")] is built. *)
Lemma failure_rejects_absent_error_witness :
  failure JsUndefined node_realm initial_world
    = (Thrown AssertionError, initial_world) /\
  failure JsNull node_realm initial_world
    = (Thrown AssertionError, initial_world) /\
  failure (JsString "boom") node_realm initial_world
    = (Returned (Failure (JsString "boom")), initial_world).
Proof.
  destruct (failure_rejects_absent_error node_realm initial_world eq_refl)
    as [H _].
  split; [exact (H JsUndefined) |].
  split; [exact (H JsNull) | exact (H (JsString "boom"))].
Defined.

(** C1 as stated fails in a host where [node:assert/strict] cannot be
    imported: [assert] is then the empty function, [failure(undefined)]
    does not throw, and a [Failure] holding [undefined] is built. *)
Lemma failure_accepts_absent_error_without_assert :
  absent JsUndefined = true /\
  failure JsUndefined realm_without_assert initial_world
    = (Returned (Failure JsUndefined), initial_world) /\
  (forall x,
     fst (failure JsUndefined realm_without_assert initial_world)
       <> Thrown x).
Proof. repeat split. intros x H. discriminate H. Qed.

(** C2 as stated fails at [failure(undefined)] in Node.js: the factory
    throws, and produces no [Failure]. *)
Lemma failure_of_undefined_produces_nothing :
  failure JsUndefined node_realm initial_world
    = (Thrown AssertionError, initial_world) /\
  (forall r w',
     failure JsUndefined node_realm initial_world <> (Returned r, w')).
Proof. split; [reflexivity | intros r w' H; discriminate H]. Qed.

Section Conversions.

Context {U : Type}.
Variable realm : Realm U.
Variable w : World U.

(** C9, as amended: in a host where [node:assert/strict] loads,
    [nothing().getSuccessOr(e)] throws the assertion error of [failure]
    for [e] null or undefined, and no [Failure] is built. *)
Theorem getSuccessOr_rejects_absent_error
    (Hloads : assert_module_loads realm = true) (e : js_value)
    (Habsent : absent e = true) :
  Maybe_getSuccessOr nothing e realm w = (Thrown AssertionError, w) /\
  Maybe_getSuccessOr nothing e = failure (U:=U) e.
Proof.
  split; [|reflexivity].
  unfold Maybe_getSuccessOr, nothing, Nothing_make, Nothing_instance,
    Nothing__getSuccessOr.
  rewrite failure_with_assert by assumption. now rewrite Habsent.
Qed.

(** C5, as amended: [something(v).getSuccessOr(e).getSuccess().unwrap()]
    is [v] for every [v] and every [e'], and
    [nothing().getSuccessOr(e).unwrapFailure()] is [e] for every [e]
    that is neither null nor undefined. *)
Theorem getSuccessOr_round_trip (v e : js_value)
    (Hpresent : absent e = false) :
  (forall e',
     (r <- Maybe_getSuccessOr (something v) e' ;;
      Maybe_unwrap (Result_getSuccess r)) realm w = (Returned v, w)) /\
  (r <- Maybe_getSuccessOr nothing e ;; Result_unwrapFailure r) realm w
    = (Returned e, w).
Proof.
  split.
  - reflexivity.
  - unfold bind, Maybe_getSuccessOr, nothing, Nothing_make,
      Nothing_instance, Nothing__getSuccessOr.
    now rewrite failure_present.
Qed.

(** C4: [unwrap()] on [nothing()] and on a [Failure], and
    [unwrapFailure()] on a [Success], throw [ImproperUnwrapError] with
    the message that names the variant; [expect(msg)] on [nothing()] and
    on a [Failure], and [expectFailure(msg)] on a [Success], throw
    [ExpectationError] with [msg] itself; on the other variant each
    returns the payload. *)
Theorem extraction_errors (v e : js_value) (msg : string) :
  Maybe_unwrap nothing realm w =
    (Thrown (ImproperUnwrapError "Attempted to unwrap a `Nothing` value"),
     w) /\
  Result_unwrap (Failure e) realm w =
    (Thrown (ImproperUnwrapError "Attempted to unwrap a `Failure` value"),
     w) /\
  Result_unwrapFailure (Success v) realm w =
    (Thrown (ImproperUnwrapError "Attempted to unwrap a `Success` value"),
     w) /\
  Maybe_expect nothing (JsString msg) realm w =
    (Thrown (ExpectationError (JsString msg)), w) /\
  Result_expect (Failure e) (JsString msg) realm w =
    (Thrown (ExpectationError (JsString msg)), w) /\
  Result_expectFailure (Success v) (JsString msg) realm w =
    (Thrown (ExpectationError (JsString msg)), w) /\
  Maybe_unwrap (something v) realm w = (Returned v, w) /\
  Maybe_expect (something v) (JsString msg) realm w = (Returned v, w) /\
  Result_unwrap (Success v) realm w = (Returned v, w) /\
  Result_expect (Success v) (JsString msg) realm w = (Returned v, w) /\
  Result_unwrapFailure (Failure e) realm w = (Returned e, w) /\
  Result_expectFailure (Failure e) (JsString msg) realm w = (Returned e, w).
Proof.
  unfold Result_expect, Result_expectFailure. unfold_monad.
  repeat split; destruct (assert_module_loads realm); reflexivity.
Qed.

(** C7: [nothing().and(x)] is [nothing()] and [something(v).and(x)] is
    [x]; [something(v).or(x)] is [something(v)] and [nothing().or(x)] is
    [x], for every [x], an Optional or not. *)
Theorem and_or_laws (v x : js_value) :
  Maybe_and nothing x = JsMaybe nothing /\
  Maybe_and (something v) x = x /\
  Maybe_or (something v) x = JsMaybe (something v) /\
  Maybe_or nothing x = x.
Proof. repeat split. Qed.

End Conversions.

(** Witness of C9, in Node.js. *)
Lemma getSuccessOr_rejects_absent_error_witness :
  Maybe_getSuccessOr nothing JsNull node_realm initial_world
    = (Thrown AssertionError, initial_world).
Proof.
  exact (proj1 (getSuccessOr_rejects_absent_error node_realm initial_world
                  eq_refl JsNull eq_refl)).
Defined.

(** C9 as stated fails in a host where [node:assert/strict] cannot be
    imported: [nothing().getSuccessOr(null)] returns a [Failure] holding
    [null]. *)
Lemma getSuccessOr_accepts_absent_error_without_assert :
  absent JsNull = true /\
  Maybe_getSuccessOr nothing JsNull realm_without_assert initial_world
    = (Returned (Failure JsNull), initial_world).
Proof. split; reflexivity. Qed.

(** Witness of C5, in Node.js. *)
Lemma getSuccessOr_round_trip_witness :
  (r <- Maybe_getSuccessOr nothing (JsString "missing") ;;
   Result_unwrapFailure r) node_realm initial_world
    = (Returned (JsString "missing"), initial_world).
Proof.
  exact (proj2 (getSuccessOr_round_trip node_realm initial_world
                  (JsNumber 42) (JsString "missing") eq_refl)).
Defined.

(** C5 as stated fails at [e = undefined] in Node.js: the conversion
    throws, and [unwrapFailure()] is never reached. *)
Lemma getSuccessOr_round_trip_fails_on_undefined :
  (r <- Maybe_getSuccessOr nothing JsUndefined ;;
   Result_unwrapFailure r) node_realm initial_world
    = (Thrown AssertionError, initial_world) /\
  (r <- Maybe_getSuccessOr nothing JsUndefined ;;
   Result_unwrapFailure r) node_realm initial_world
    <> (Returned JsUndefined, initial_world).
Proof. split; [reflexivity | discriminate]. Qed.

Section Steps.

Context {U : Type}.
Variable realm : Realm U.

(** One call of a function object by the library. *)
Lemma js_call_function (f : nat) (arg : js_value) (w : World U) :
  js_call (JsFunction f) arg realm w =
    call_then realm f arg w (fun r => Returned r).
Proof.
  unfold js_call, call_then, world_after_call.
  destruct (function_body realm f arg (store w)) as [[r|x] u]; reflexivity.
Qed.

(** An assertion that holds is passed, in any host. *)
Lemma assert_true (w : World U) : assert true realm w = (Returned tt, w).
Proof.
  unfold assert, node_assert_ok, ret.
  destruct (assert_module_loads realm); reflexivity.
Qed.

(** [call_then] records exactly the one call. *)
Lemma calls_call_then {A : Type} (f : nat) (arg : js_value)
    (k : js_value -> outcome A) (w : World U) :
  calls (snd (call_then realm f arg w k)) = (calls w ++ [(f, arg)])%list.
Proof. reflexivity. Qed.

(** A computation that begins with an assertion that holds. *)
Lemma bind_assert_true {A : Type} (k : unit -> M U A) (w : World U) :
  (bind (assert true) k) realm w = k tt realm w.
Proof. unfold bind. now rewrite assert_true. Qed.

(** A computation that begins with the call of a function object. *)
Lemma bind_js_call {A : Type} (f : nat) (arg : js_value)
    (k : js_value -> M U A) (w : World U) :
  (bind (js_call (JsFunction f) arg) k) realm w =
    match fst (function_body realm f arg (store w)) with
    | Returned r => k r realm (world_after_call realm f arg w)
    | Thrown e => (Thrown e, world_after_call realm f arg w)
    end.
Proof.
  unfold bind. rewrite js_call_function. unfold call_then.
  destruct (fst (function_body realm f arg (store w))); reflexivity.
Qed.

End Steps.

Section Callbacks.

Context {U : Type}.
Variable realm : Realm U.
Variable w : World U.

(** [inspect(f)] on a [Something]: one call, then the receiver. *)
Lemma Maybe_inspect_something (v : js_value) (f : nat) :
  Maybe_inspect (something v) (JsFunction f) realm w =
    call_then realm f v w (fun _ => Returned (something v)).
Proof.
  unfold Maybe_inspect, something, Something_make, Something__inspect.
  rewrite bind_js_call. unfold call_then, ret.
  destruct (fst (function_body realm f v (store w))); reflexivity.
Qed.

Lemma Result_inspect_success (v : js_value) (f : nat) :
  Result_inspect (Success v) (JsFunction f) realm w =
    call_then realm f v w (fun _ => Returned (Success v)).
Proof.
  unfold Result_inspect, Success__inspect.
  change (String.eqb (typeof (JsFunction f)) "function") with true.
  rewrite bind_assert_true, bind_js_call. unfold call_then, ret.
  destruct (fst (function_body realm f v (store w))); reflexivity.
Qed.

Lemma Result_inspect_failure (e : js_value) (f : nat) :
  Result_inspect (Failure e) (JsFunction f) realm w =
    (Returned (Failure e), w).
Proof.
  unfold Result_inspect, Failure__inspect.
  change (String.eqb (typeof (JsFunction f)) "function") with true.
  now rewrite bind_assert_true.
Qed.

Lemma Result_inspectFailure_failure (e : js_value) (f : nat) :
  Result_inspectFailure (Failure e) (JsFunction f) realm w =
    call_then realm f e w (fun _ => Returned (Failure e)).
Proof.
  unfold Result_inspectFailure, Failure__inspectFailure.
  change (String.eqb (typeof (JsFunction f)) "function") with true.
  rewrite bind_assert_true, bind_js_call. unfold call_then, ret.
  destruct (fst (function_body realm f e (store w))); reflexivity.
Qed.

Lemma Result_inspectFailure_success (v : js_value) (f : nat) :
  Result_inspectFailure (Success v) (JsFunction f) realm w =
    (Returned (Success v), w).
Proof.
  unfold Result_inspectFailure, Success__inspectFailure.
  change (String.eqb (typeof (JsFunction f)) "function") with true.
  now rewrite bind_assert_true.
Qed.

(** C8: [inspect(f)] on [something(v)] and on [success(v)], and
    [inspectFailure(f)] on a [Failure] of [e], are one call of [f], on
    the payload, after which the receiver is returned as it was (what
    [f] throws is thrown on): the record of calls grows by that one
    call.  On the other variant the receiver is returned and the world,
    with its record of calls, is the one before. *)
Theorem inspect_calls_once (v e g : js_value) (f : nat) :
  Maybe_inspect (something v) (JsFunction f) realm w =
    call_then realm f v w (fun _ => Returned (something v)) /\
  calls (snd (Maybe_inspect (something v) (JsFunction f) realm w)) =
    (calls w ++ [(f, v)])%list /\
  Maybe_inspect nothing g realm w = (Returned nothing, w) /\
  Result_inspect (success v) (JsFunction f) realm w =
    call_then realm f v w (fun _ => Returned (success v)) /\
  calls (snd (Result_inspect (success v) (JsFunction f) realm w)) =
    (calls w ++ [(f, v)])%list /\
  Result_inspect (Failure e) (JsFunction f) realm w =
    (Returned (Failure e), w) /\
  Result_inspectFailure (Failure e) (JsFunction f) realm w =
    call_then realm f e w (fun _ => Returned (Failure e)) /\
  calls (snd (Result_inspectFailure (Failure e) (JsFunction f) realm w)) =
    (calls w ++ [(f, e)])%list /\
  Result_inspectFailure (success v) (JsFunction f) realm w =
    (Returned (success v), w).
Proof.
  split; [apply Maybe_inspect_something|].
  split; [rewrite Maybe_inspect_something; apply calls_call_then|].
  split; [reflexivity|].
  split; [apply Result_inspect_success|].
  split; [unfold success, Success_make; rewrite Result_inspect_success;
          apply calls_call_then|].
  split; [apply Result_inspect_failure|].
  split; [apply Result_inspectFailure_failure|].
  split; [rewrite Result_inspectFailure_failure; apply calls_call_then|].
  apply Result_inspectFailure_success.
Qed.

(** [map(f)] on a [Something]: one call of [f], whose result is put in
    a new [Something]. *)
Lemma Maybe_map_something (v : js_value) (f : nat) :
  Maybe_map (something v) (JsFunction f) realm w =
    call_then realm f v w (fun r => Returned (something r)).
Proof.
  unfold Maybe_map, something, Something_make, Something__map.
  unfold bind at 1. rewrite js_call_function. unfold call_then, ret.
  destruct (fst (function_body realm f v (store w))); reflexivity.
Qed.

(** C6: when [h] is [x => g(f(x))], [something(v).map(f).map(g)] and
    [something(v).map(h)] return the same container, or throw the same
    exception, and leave the callbacks' state the same; the result of
    [map] on a [Something] is a [Something]; and [nothing().map(x)]
    returns [nothing()] in the world as it was, whatever [x] is: no call
    is made. *)
Theorem map_composes (v x : js_value) (f g h : nat)
    (Hh : forall y u,
        function_body realm h y u =
          composed (function_body realm f) (function_body realm g) y u) :
  fst ((m <- Maybe_map (something v) (JsFunction f) ;;
        Maybe_map m (JsFunction g)) realm w) =
    fst (Maybe_map (something v) (JsFunction h) realm w) /\
  store (snd ((m <- Maybe_map (something v) (JsFunction f) ;;
               Maybe_map m (JsFunction g)) realm w)) =
    store (snd (Maybe_map (something v) (JsFunction h) realm w)) /\
  Maybe_map (something v) (JsFunction f) realm w =
    call_then realm f v w (fun r => Returned (something r)) /\
  Maybe_map nothing x realm w = (Returned nothing, w).
Proof.
  assert (Hboth :
    let lhs := (m <- Maybe_map (something v) (JsFunction f) ;;
                Maybe_map m (JsFunction g)) realm w in
    let rhs := Maybe_map (something v) (JsFunction h) realm w in
    fst lhs = fst rhs /\ store (snd lhs) = store (snd rhs)).
  { cbv zeta.
    unfold Maybe_map, something, Something_make, Something__map.
    unfold_monad. rewrite Hh. unfold composed.
    destruct (function_body realm f v (store w)) as [[y|e1] u1]; simpl;
      [|split; reflexivity].
    destruct (function_body realm g y u1) as [[z|e2] u2]; simpl;
      split; reflexivity. }
  destruct Hboth as [Hfst Hstore].
  split; [exact Hfst|]. split; [exact Hstore|].
  split; [apply Maybe_map_something | reflexivity].
Qed.

(** Whatever is one call of a callback, passed through a function that
    always returns, raises nothing of its own. *)
Lemma call_then_raises_nothing {A : Type} (m : M U A) (f : nat)
    (arg : js_value) (k : js_value -> A) :
  m realm w = call_then realm f arg w (fun r => Returned (k r)) ->
  raises_nothing_of_its_own m realm w f arg.
Proof.
  intros Hm. unfold raises_nothing_of_its_own. rewrite Hm.
  unfold call_then. simpl.
  destruct (fst (function_body realm f arg (store w))); [exact I|reflexivity].
Qed.

Lemma Result_and_result (this other : Result) :
  Result_and this (JsResult other) realm w =
    (Returned match this with
              | Failure e => JsResult (Failure e)
              | Success _ => JsResult other
              end, w).
Proof.
  unfold Result_and. change (isResult (JsResult other)) with true.
  rewrite bind_assert_true. destruct this; reflexivity.
Qed.

Lemma Result_or_result (this other : Result) :
  Result_or this (JsResult other) realm w =
    (Returned match this with
              | Failure _ => JsResult other
              | Success v => JsResult (Success v)
              end, w).
Proof.
  unfold Result_or. change (isResult (JsResult other)) with true.
  rewrite bind_assert_true. destruct this; reflexivity.
Qed.

(** [andThen(f)] on a [Success], for [f] that returns a [Result] on
    the payload. *)
Lemma Result_andThen_success (v : js_value) (k : nat) :
  returns_a_at isResult realm k v w ->
  Result_andThen (Success v) (JsFunction k) realm w =
    call_then realm k v w (fun r => Returned r).
Proof.
  intros Hk. unfold Result_andThen, Success__andThen.
  change (String.eqb (typeof (JsFunction k)) "function") with true.
  rewrite bind_assert_true, bind_js_call. unfold call_then.
  destruct (function_body realm k v (store w)) as [[r|x] u] eqn:Hbody;
    simpl; [|reflexivity].
  rewrite (Hk _ _ Hbody). now rewrite bind_assert_true.
Qed.

(** [isSuccessAnd(p)] on a [Success] and [isFailureAnd(p)] on a
    [Failure], for [p] that returns a boolean on the payload. *)
Lemma Result_isSuccessAnd_success (v : js_value) (p : nat) :
  returns_a_at is_boolean realm p v w ->
  Result_isSuccessAnd (Success v) (JsFunction p) realm w =
    call_then realm p v w (fun r => Returned r).
Proof.
  intros Hp. unfold Result_isSuccessAnd, Success__isSuccessAnd.
  change (String.eqb (typeof (JsFunction p)) "function") with true.
  rewrite bind_assert_true, bind_js_call. unfold call_then.
  destruct (function_body realm p v (store w)) as [[r|x] u] eqn:Hbody;
    simpl; [|reflexivity].
  pose proof (Hp _ _ Hbody) as Hr. unfold is_boolean in Hr.
  rewrite Hr. now rewrite bind_assert_true.
Qed.

Lemma Result_isFailureAnd_failure (e : js_value) (p : nat) :
  returns_a_at is_boolean realm p e w ->
  Result_isFailureAnd (Failure e) (JsFunction p) realm w =
    call_then realm p e w (fun r => Returned r).
Proof.
  intros Hp. unfold Result_isFailureAnd, Failure__isFailureAnd.
  change (String.eqb (typeof (JsFunction p)) "function") with true.
  rewrite bind_assert_true, bind_js_call. unfold call_then.
  destruct (function_body realm p e (store w)) as [[r|x] u] eqn:Hbody;
    simpl; [|reflexivity].
  pose proof (Hp _ _ Hbody) as Hr. unfold is_boolean in Hr.
  rewrite Hr. now rewrite bind_assert_true.
Qed.

Lemma Result_map_success (v : js_value) (f : nat) :
  Result_map (Success v) (JsFunction f) realm w =
    call_then realm f v w (fun r => Returned (Success r)).
Proof.
  unfold Result_map, Success__map, Success_make.
  change (String.eqb (typeof (JsFunction f)) "function") with true.
  rewrite bind_assert_true, bind_js_call. unfold call_then, ret.
  destruct (fst (function_body realm f v (store w))); reflexivity.
Qed.

(** [mapFailure(f)] on a [Failure], for [f] that returns neither
    [null] nor [undefined] on the error. *)
Lemma Result_mapFailure_failure (e : js_value) (f : nat) :
  returns_a_at present realm f e w ->
  Result_mapFailure (Failure e) (JsFunction f) realm w =
    call_then realm f e w (fun r => Returned (Failure r)).
Proof.
  intros Hf. unfold Result_mapFailure, Failure__mapFailure, Failure_make.
  change (String.eqb (typeof (JsFunction f)) "function") with true.
  rewrite bind_assert_true, bind_js_call. unfold call_then.
  destruct (function_body realm f e (store w)) as [[r|x] u] eqn:Hbody;
    simpl; [|reflexivity].
  pose proof (Hf _ _ Hbody) as Hr.
  assert (Hr1 : negb (String.eqb (typeof r) "undefined") = true)
    by (destruct r; try reflexivity; discriminate Hr).
  assert (Hr2 : negb (is_null r) = true)
    by (destruct r; try reflexivity; discriminate Hr).
  rewrite Hr1, bind_assert_true, Hr2, bind_assert_true. reflexivity.
Qed.

(** A method that only checks that its argument is a function and then
    returns: the variant on which the callback is not called. *)
Ltac returns_after_assert :=
  eexists; eexists;
  change (String.eqb (typeof (JsFunction _)) "function") with true;
  rewrite bind_assert_true; reflexivity.

(** C3: on arguments of the documented types, the combinators [and],
    [or], [andThen], [inspect], [inspectFailure], [isSuccessAnd],
    [isFailureAnd], [map] and [mapFailure] raise nothing of their own:
    each returns, or throws what the callback threw when called on the
    payload.  No assertion fires.  The documented types are: [other] a
    [Result]; [f], [p] and [k] functions; and, each for the one method
    it belongs to and at the one call that method makes, [k] returning
    a [Result] on the value ([andThen]), [p] returning a boolean on the
    value ([isSuccessAnd]) or on the error ([isFailureAnd]), and [f]
    returning neither [null] nor [undefined] on the error
    ([mapFailure]).  ([getFailure], [getSuccess], [isFailure] and
    [isSuccess] are total functions with no effect.) *)
Theorem result_combinators_raise_nothing_of_their_own
    (this other : Result) (v e : js_value) (f p k : nat) :
  returns (Result_and this (JsResult other)) realm w /\
  returns (Result_or this (JsResult other)) realm w /\
  (returns_a_at isResult realm k v w ->
   raises_nothing_of_its_own
     (Result_andThen (Success v) (JsFunction k)) realm w k v) /\
  returns (Result_andThen (Failure e) (JsFunction k)) realm w /\
  raises_nothing_of_its_own
    (Result_inspect (Success v) (JsFunction f)) realm w f v /\
  returns (Result_inspect (Failure e) (JsFunction f)) realm w /\
  raises_nothing_of_its_own
    (Result_inspectFailure (Failure e) (JsFunction f)) realm w f e /\
  returns (Result_inspectFailure (Success v) (JsFunction f)) realm w /\
  (returns_a_at is_boolean realm p v w ->
   raises_nothing_of_its_own
     (Result_isSuccessAnd (Success v) (JsFunction p)) realm w p v) /\
  returns (Result_isSuccessAnd (Failure e) (JsFunction p)) realm w /\
  (returns_a_at is_boolean realm p e w ->
   raises_nothing_of_its_own
     (Result_isFailureAnd (Failure e) (JsFunction p)) realm w p e) /\
  returns (Result_isFailureAnd (Success v) (JsFunction p)) realm w /\
  raises_nothing_of_its_own
    (Result_map (Success v) (JsFunction f)) realm w f v /\
  returns (Result_map (Failure e) (JsFunction f)) realm w /\
  (returns_a_at present realm f e w ->
   raises_nothing_of_its_own
     (Result_mapFailure (Failure e) (JsFunction f)) realm w f e) /\
  returns (Result_mapFailure (Success v) (JsFunction f)) realm w.
Proof.
  split; [eexists; eexists; apply Result_and_result|].
  split; [eexists; eexists; apply Result_or_result|].
  split; [intros Hk; apply call_then_raises_nothing with (k := fun r => r);
          now apply Result_andThen_success|].
  split; [unfold returns, Result_andThen; returns_after_assert|].
  split; [apply call_then_raises_nothing with (k := fun _ => Success v);
          apply Result_inspect_success|].
  split; [unfold returns, Result_inspect; returns_after_assert|].
  split; [apply call_then_raises_nothing with (k := fun _ => Failure e);
          apply Result_inspectFailure_failure|].
  split; [unfold returns, Result_inspectFailure; returns_after_assert|].
  split; [intros Hp; apply call_then_raises_nothing with (k := fun r => r);
          now apply Result_isSuccessAnd_success|].
  split; [unfold returns, Result_isSuccessAnd; returns_after_assert|].
  split; [intros Hp; apply call_then_raises_nothing with (k := fun r => r);
          now apply Result_isFailureAnd_failure|].
  split; [unfold returns, Result_isFailureAnd; returns_after_assert|].
  split; [apply call_then_raises_nothing with (k := fun r => Success r);
          apply Result_map_success|].
  split; [unfold returns, Result_map; returns_after_assert|].
  split; [intros Hf;
          apply call_then_raises_nothing with (k := fun r => Failure r);
          now apply Result_mapFailure_failure|].
  unfold returns, Result_mapFailure; returns_after_assert.
Qed.

End Callbacks.

(** Witness of C6, in Node.js: function 5 is [x => f4(f0(x))]. *)
Lemma map_composes_witness :
  fst ((m <- Maybe_map (something (JsNumber 21)) (JsFunction 0) ;;
        Maybe_map m (JsFunction 4)) node_realm initial_world) =
    fst (Maybe_map (something (JsNumber 21)) (JsFunction 5)
           node_realm initial_world).
Proof.
  exact (proj1 (map_composes node_realm initial_world
                  (JsNumber 21) JsUndefined 0 4 5
                  (fun y u => eq_refl))).
Defined.

(** Witness of C3, in Node.js: [success(true).isSuccessAnd(x => x)],
    where [x => x] returns a boolean on this payload though not on
    every one; [success(42).andThen(x => success(x))]; and
    [failure("late").mapFailure(e => "mapped")]. *)
Lemma result_combinators_raise_nothing_of_their_own_witness :
  raises_nothing_of_its_own
    (Result_isSuccessAnd (Success (JsBoolean true)) (JsFunction 11))
    lab_realm initial_world 11 (JsBoolean true) /\
  raises_nothing_of_its_own
    (Result_andThen (Success (JsNumber 42)) (JsFunction 3))
    lab_realm initial_world 3 (JsNumber 42) /\
  raises_nothing_of_its_own
    (Result_mapFailure (Failure (JsString "late")) (JsFunction 15))
    lab_realm initial_world 15 (JsString "late").
Proof.
  split; [|split].
  - refine (proj1 (proj2 (proj2 (proj2 (proj2 (proj2 (proj2 (proj2 (proj2
             (@result_combinators_raise_nothing_of_their_own
                Z lab_realm initial_world
                (Success JsNull) (Success JsNull)
                (JsBoolean true) JsNull 0 11 0))))))))) _).
    intros r u' Hbody. simpl in Hbody.
    injection Hbody as Hr _. now subst r.
  - refine (proj1 (proj2 (proj2
             (@result_combinators_raise_nothing_of_their_own
                Z lab_realm initial_world
                (Success JsNull) (Success JsNull)
                (JsNumber 42) JsNull 0 0 3))) _).
    intros r u' Hbody. simpl in Hbody.
    injection Hbody as Hr _. now subst r.
  - refine (proj1 (proj2 (proj2 (proj2 (proj2 (proj2 (proj2 (proj2 (proj2
             (proj2 (proj2 (proj2 (proj2 (proj2 (proj2
             (@result_combinators_raise_nothing_of_their_own
                Z lab_realm initial_world
                (Success JsNull) (Success JsNull)
                JsNull (JsString "late") 15 0 0))))))))))))))) _).
    intros r u' Hbody. simpl in Hbody.
    injection Hbody as Hr _. now subst r.
Defined.

(** Outside the documented types the assertions do fire, in Node.js:
    [and] with a number, [map] with a string, [isSuccessAnd] with a
    function that returns a number, [andThen] with one that returns
    undefined. *)
Example and_rejects_a_number :
  Result_and (Success (JsNumber 1)) (JsNumber 2) node_realm initial_world
    = (Thrown AssertionError, initial_world).
Proof. reflexivity. Qed.

Example map_rejects_a_string :
  Result_map (Success (JsNumber 1)) (JsString "f") node_realm initial_world
    = (Thrown AssertionError, initial_world).
Proof. reflexivity. Qed.

Example isSuccessAnd_rejects_a_number_result :
  fst (Result_isSuccessAnd (Success (JsNumber 1)) (JsFunction 0)
         node_realm initial_world)
    = Thrown AssertionError.
Proof. reflexivity. Qed.

Example andThen_rejects_an_undefined_result :
  fst (Result_andThen (Success (JsNumber 1)) (JsFunction 1)
         node_realm initial_world)
    = Thrown AssertionError.
Proof. reflexivity. Qed.

(** ** Rendering *)

Lemma string_app_assoc (a b c : string) : (a ++ b) ++ c = a ++ (b ++ c).
Proof. induction a as [|x a IH]; simpl; [reflexivity | now rewrite IH]. Qed.

(** Trimming at the end does not reach past a suffix of which something
    is left. *)
Lemma trimEnd_app (a b : string) :
  trimEnd b <> EmptyString -> trimEnd (a ++ b) = a ++ trimEnd b.
Proof.
  intros Hb. induction a as [|x a IH]; simpl; [reflexivity|].
  rewrite IH. destruct (a ++ trimEnd b) eqn:Happ; [|reflexivity].
  destruct a; simpl in Happ; [contradiction | discriminate].
Qed.

Lemma trimEnd_middle (p v t t' : string) :
  trimEnd t = t' -> t' <> EmptyString ->
  trimEnd (p ++ v ++ t) = p ++ v ++ t'.
Proof.
  intros Ht Ht'. subst t'.
  rewrite <- string_app_assoc, trimEnd_app by assumption.
  apply string_app_assoc.
Qed.

(** [.trim()] takes the line feed in front of the template and the line
    feed and indentation behind it, and nothing else. *)
Lemma trim_success_template (valueString : string) :
  trim (success_template valueString) = success_block valueString.
Proof.
  unfold trim, success_template, success_block. simpl trimStart.
  change (trimEnd
            (("Result{" ++ String LF "  Success{" ++
              String LF "    value: ") ++ valueString ++
             ("," ++ String LF "  }" ++ String LF "}" ++
              String LF "        ")) =
          ("Result{" ++ String LF "  Success{" ++
           String LF "    value: ") ++ valueString ++
          ("," ++ String LF "  }" ++ String LF "}")).
  apply trimEnd_middle; [reflexivity | discriminate].
Qed.

Lemma trim_failure_template (errorString : string) :
  trim (failure_template errorString) = failure_block errorString.
Proof.
  unfold trim, failure_template, failure_block. simpl trimStart.
  change (trimEnd
            (("Result{" ++ String LF "  Failure{" ++
              String LF "    error: ") ++ errorString ++
             ("," ++ String LF "  }" ++ String LF "}" ++
              String LF "        ")) =
          ("Result{" ++ String LF "  Failure{" ++
           String LF "    error: ") ++ errorString ++
          ("," ++ String LF "  }" ++ String LF "}")).
  apply trimEnd_middle; [reflexivity | discriminate].
Qed.

Lemma split_single_line (s : string) :
  single_line s = true -> split LF s = [s].
Proof.
  induction s as [|c s IH]; simpl; [reflexivity|].
  intros Hs. apply andb_true_iff in Hs as [Hc Hs].
  apply negb_true_iff in Hc. rewrite Hc, (IH Hs). reflexivity.
Qed.

Lemma trimStart_flush_left (s : string) :
  flush_left s = true -> trimStart s = s.
Proof.
  destruct s as [|c s]; simpl; [reflexivity|].
  intros Hc. apply negb_true_iff in Hc. now rewrite Hc.
Qed.

(** A rendering of one line that does not begin with white space goes
    into the block as it is. *)
Lemma indented_single_line (s : string) :
  single_line s = true -> flush_left s = true -> indented s = s.
Proof.
  intros Hline Hflush. unfold indented. rewrite split_single_line by assumption.
  simpl. now apply trimStart_flush_left.
Qed.

(** ** The layout of the payload *)

(** The pieces of a string are never none. *)
Lemma split_not_nil (sep : ascii) (s : string) : split sep s <> [].
Proof.
  destruct s as [|c s]; simpl; [discriminate|].
  destruct (Ascii.eqb c sep); [discriminate|].
  destruct (split sep s); discriminate.
Qed.

(** Splitting at a line feed in the middle. *)
Lemma split_app_LF (a b : string) :
  split LF (a ++ String LF b) = (split LF a ++ split LF b)%list.
Proof.
  induction a as [|c a IH]; simpl.
  - reflexivity.
  - destruct (Ascii.eqb c LF); [now rewrite IH|].
    rewrite IH. pose proof (split_not_nil LF a) as Ha.
    destruct (split LF a); [contradiction | reflexivity].
Qed.

Lemma join_cons (sep : ascii) (x : string) (l : list string) :
  l <> [] -> join sep (x :: l) = x ++ String sep (join sep l).
Proof. destruct l; [contradiction | reflexivity]. Qed.

Lemma join_app (sep : ascii) (l1 l2 : list string) :
  l1 <> [] -> l2 <> [] ->
  join sep (l1 ++ l2) = join sep l1 ++ String sep (join sep l2).
Proof.
  intros H1 H2. induction l1 as [|x l1 IH]; [contradiction|].
  destruct l1 as [|y l1].
  - simpl app. now rewrite join_cons.
  - change ((x :: y :: l1) ++ l2)%list with (x :: ((y :: l1) ++ l2))%list.
    rewrite join_cons by discriminate.
    rewrite IH by discriminate.
    rewrite (join_cons sep x (l := y :: l1)) by discriminate.
    now rewrite !string_app_assoc.
Qed.

(** The lines before and after a line feed are indented apart. *)
Lemma indent_lines_app_LF (a b : string) :
  indent_lines (a ++ String LF b) =
    indent_lines a ++ String LF (indent_lines b).
Proof.
  unfold indent_lines. rewrite split_app_LF, map_app.
  apply join_app; intros H; apply map_eq_nil in H;
    now apply split_not_nil in H.
Qed.

Lemma indent_lines_single_line (s : string) :
  single_line s = true -> indent_lines s = "    " ++ s.
Proof.
  intros Hs. unfold indent_lines. now rewrite split_single_line.
Qed.

(** The indentation starts with the four spaces put before the first
    line. *)
Lemma indent_lines_cons (c : ascii) (s : string) :
  c <> LF ->
  exists rest, indent_lines s = "    " ++ rest /\
               indent_lines (String c s) = "    " ++ String c rest.
Proof.
  intros Hc. unfold indent_lines. simpl split.
  apply Ascii.eqb_neq in Hc. rewrite Hc.
  pose proof (split_not_nil LF s) as Hs.
  destruct (split LF s) as [|p ps]; [contradiction|].
  destruct ps as [|q ps].
  - exists p. split; reflexivity.
  - exists (p ++ String LF
              (join LF (map (fun line => "    " ++ line) (q :: ps)))).
    split; reflexivity.
Qed.

Lemma indented_white_space (c : ascii) (s : string) :
  is_white_space c = true -> indented (String c s) = indented s.
Proof.
  intros Hc. change (indented s) with (trimStart (indent_lines s)).
  change (indented (String c s))
    with (trimStart (indent_lines (String c s))).
  destruct (Ascii.eqb c LF) eqn:HLF.
  - apply Ascii.eqb_eq in HLF. subst c.
    change (String LF s) with ("" ++ String LF s).
    rewrite indent_lines_app_LF. reflexivity.
  - apply Ascii.eqb_neq in HLF.
    destruct (indent_lines_cons s HLF) as (rest & Hs & Hcs).
    rewrite Hs, Hcs. simpl. now rewrite Hc.
Qed.

Lemma flush_left_trimStart (s : string) : flush_left (trimStart s) = true.
Proof.
  induction s as [|c s IH]; simpl; [reflexivity|].
  destruct (is_white_space c) eqn:Hc; [exact IH|].
  simpl. now rewrite Hc.
Qed.

Lemma indented_trimStart (s : string) : indented (trimStart s) = indented s.
Proof.
  induction s as [|c s IH]; simpl; [reflexivity|].
  destruct (is_white_space c) eqn:Hc; [|reflexivity].
  now rewrite IH, indented_white_space.
Qed.


(** [indent_lines] puts four spaces in front and after every line
    feed. *)
Lemma indent_lines_hanging (s : string) :
  indent_lines s = "    " ++ hanging s.
Proof.
  induction s as [|c s IH].
  - reflexivity.
  - destruct (Ascii.eqb c LF) eqn:HLF.
    + apply Ascii.eqb_eq in HLF. subst c.
      change (String LF s) with ("" ++ String LF s).
      rewrite indent_lines_app_LF, IH. reflexivity.
    + pose proof HLF as HLF'. apply Ascii.eqb_neq in HLF'.
      destruct (indent_lines_cons s HLF') as (rest & Hs & Hcs).
      rewrite Hcs. rewrite IH in Hs. simpl in Hs.
      injection Hs as Hrest. subst rest. simpl. now rewrite HLF.
Qed.

Lemma trimStart_hanging (s : string) :
  trimStart (hanging s) = hanging (trimStart s).
Proof.
  induction s as [|c s IH]; [reflexivity|].
  simpl. destruct (Ascii.eqb c LF) eqn:HLF.
  - apply Ascii.eqb_eq in HLF. subst c. simpl. exact IH.
  - simpl. destruct (is_white_space c); [exact IH|].
    simpl. now rewrite HLF.
Qed.

(** What [indented] does to the rendering of a payload, read off its
    characters: the white space in front goes, and four spaces come
    after every line feed that is left. *)
Lemma indented_is_hanging (s : string) :
  indented s = hanging (trimStart s).
Proof.
  change (indented s) with (trimStart (indent_lines s)).
  rewrite indent_lines_hanging. simpl. apply trimStart_hanging.
Qed.

Section Rendering.

Context {U : Type}.
Variable realm : Realm U.
Variable w : World U.

Lemma Result_convertToString_success (v : js_value)
    (toStringFunction : js_value -> string) :
  Result_convertToString (Success v) toStringFunction realm w =
    (Returned (success_block (indented (toStringFunction v))), w).
Proof.
  rewrite <- trim_success_template. reflexivity.
Qed.

Lemma Result_convertToString_failure (e : js_value)
    (toStringFunction : js_value -> string) :
  Result_convertToString (Failure e) toStringFunction realm w =
    (Returned (failure_block (indented (toStringFunction e))), w).
Proof.
  rewrite <- trim_failure_template. reflexivity.
Qed.

Lemma Result_toString_success (v : js_value) :
  Result_toString (Success v) realm w =
    coerce_then realm v w
      (fun s => success_block (hanging (trimStart s))).
Proof.
  unfold Result_toString, Result_convertToString_by, coerce_then. simpl.
  unfold bind, ret, js_ToString.
  destruct w as [cs u]. destruct v; simpl; try reflexivity;
    match goal with
    | |- context [ToString realm ?x ?u] =>
        destruct (ToString realm x u) as [[str|exn] u1]
    end; simpl; try reflexivity;
    now rewrite trim_success_template, indented_is_hanging.
Qed.

Lemma Result_toString_failure (e : js_value) :
  Result_toString (Failure e) realm w =
    coerce_then realm e w
      (fun s => failure_block (hanging (trimStart s))).
Proof.
  unfold Result_toString, Result_convertToString_by, coerce_then. simpl.
  unfold bind, ret, js_ToString.
  destruct w as [cs u]. destruct e; simpl; try reflexivity;
    match goal with
    | |- context [ToString realm ?x ?u] =>
        destruct (ToString realm x u) as [[str|exn] u1]
    end; simpl; try reflexivity;
    now rewrite trim_failure_template, indented_is_hanging.
Qed.

(** C10, as amended: [toString()] of [success(v)] is the block
    [Result{ / Success{ / value: ..., / } / }] and that of a [Failure]
    the block [Result{ / Failure{ / error: ..., / } / }], around what
    the string coercion writes for the payload, without the white space
    in front of it and with four spaces after each of its line feeds;
    the same holds, with its own rendering, for every stringifier
    handed to [#convertToString] that returns.  [toString()] of
    [something(v)] is [Maybe{ Something{ value: ... } }] around what the
    coercion writes, as it is, and that of [nothing()] is
    [Maybe{ Nothing }].  Where the coercion throws, as it does on a
    symbol, [toString()] throws the same.  Both variants being
    rendered so, the branch that throws [UnreachableCodeError] is not
    taken. *)
Theorem toString_renders (v e : js_value)
    (toStringFunction : js_value -> string) :
  Result_toString (success v) realm w =
    coerce_then realm v w
      (fun s => success_block (hanging (trimStart s))) /\
  Result_toString (Failure e) realm w =
    coerce_then realm e w
      (fun s => failure_block (hanging (trimStart s))) /\
  Result_convertToString (success v) toStringFunction realm w =
    (Returned (success_block (hanging (trimStart (toStringFunction v)))),
     w) /\
  Result_convertToString (Failure e) toStringFunction realm w =
    (Returned (failure_block (hanging (trimStart (toStringFunction e)))),
     w) /\
  Maybe_toString (something v) realm w =
    coerce_then realm v w
      (fun s => "Maybe{ Something{ value: " ++ s ++ " } }") /\
  Maybe_toString nothing realm w = (Returned "Maybe{ Nothing }", w) /\
  (forall d, fst (Maybe_toString (something (JsSymbol d)) realm w) =
             Thrown TypeError) /\
  (forall d, fst (Result_toString (success (JsSymbol d)) realm w) =
             Thrown TypeError).
Proof.
  split; [|split; [|split; [|split; [|split; [|split; [|split]]]]]].
  - apply Result_toString_success.
  - apply Result_toString_failure.
  - rewrite <- indented_is_hanging. apply Result_convertToString_success.
  - rewrite <- indented_is_hanging. apply Result_convertToString_failure.
  - unfold Maybe_toString, coerce_then. simpl. unfold bind, ret, js_ToString.
    destruct w as [cs u]. destruct v; simpl; try reflexivity;
      match goal with
      | |- context [ToString realm ?x ?u] =>
          destruct (ToString realm x u) as [[str|exn] u1]
      end; reflexivity.
  - reflexivity.
  - reflexivity.
  - reflexivity.
Qed.

End Rendering.

(** C10 as stated fails on a container that holds a symbol, in
    Node.js: the string coercion throws [TypeError], and so
    [toString()] of [something(Symbol("id"))] and of
    [success(Symbol("id"))] does, and renders nothing. *)
Lemma toString_of_a_symbol_throws :
  Maybe_toString (something (JsSymbol "id")) node_realm initial_world
    = (Thrown TypeError, initial_world) /\
  Result_toString (success (JsSymbol "id")) node_realm initial_world
    = (Thrown TypeError, initial_world).
Proof. split; reflexivity. Qed.

(** ** Runs in Node.js *)

(** In the example hosts the coercion of a template literal is
    [template_string]. *)
Lemma js_ToString_node (v : js_value) (w : World Z) :
  js_ToString v node_realm w = (template_string v, w).
Proof. destruct w; destruct v; reflexivity. Qed.

(** The string coercion of the example hosts writes a container as the
    container's own [toString] does, and throws when it throws. *)
Lemma template_string_is_toString (m : Maybe) (r : Result)
    (w : World Z) :
  fst (Maybe_toString m node_realm w) = template_string (JsMaybe m) /\
  fst (Result_toString r node_realm w) = template_string (JsResult r).
Proof.
  split.
  - destruct m as [v|]; [|reflexivity].
    unfold Maybe_toString, Maybe_isSomething, Something__isSomething,
      Maybe_unwrap, Something__unwrap.
    unfold bind at 1. unfold ret at 1. unfold bind at 1.
    rewrite js_ToString_node.
    destruct (template_string v) eqn:E; simpl; rewrite ?E; reflexivity.
  - destruct r as [v|v];
      unfold Result_toString, Result_convertToString_by, Result_isSuccess,
        Failure__isSuccess, Success__isSuccess, Result_isFailure,
        Failure__isFailure, Result_unwrap, Result_unwrapFailure,
        Success__unwrap, Failure__unwrapFailure;
      unfold bind at 1; unfold ret at 1; unfold bind at 1;
      rewrite js_ToString_node;
      destruct (template_string v) eqn:E; simpl; rewrite ?E; reflexivity.
Qed.

Example success_42_toString :
  Result_toString (success (JsNumber 42)) node_realm initial_world =
    (Returned ("Result{" ++ String LF "  Success{" ++
               String LF "    value: 42," ++
               String LF "  }" ++ String LF "}"),
     initial_world).
Proof. reflexivity. Qed.

(** A payload that is itself a container is laid out inside the block,
    its own lines four spaces further in. *)
Example nested_failure_toString :
  Result_toString (Failure (JsResult (Success (JsString "deep"))))
    node_realm initial_world =
    (Returned ("Result{" ++ String LF "  Failure{" ++
               String LF "    error: Result{" ++
               String LF "      Success{" ++
               String LF "        value: deep," ++
               String LF "      }" ++
               String LF "    }," ++
               String LF "  }" ++ String LF "}"),
     initial_world).
Proof. reflexivity. Qed.

Example something_42_toString :
  Maybe_toString (something (JsNumber 42)) node_realm initial_world =
    (Returned "Maybe{ Something{ value: 42 } }", initial_world).
Proof. reflexivity. Qed.

(** [success(42).map(x => x * 2).unwrap()] is 84, after one call. *)
Example parse_then_double :
  (r <- Result_map (success (JsNumber 42)) (JsFunction 0) ;;
   Result_unwrap r) node_realm initial_world =
    (Returned (JsNumber 84),
     {| calls := [(0, JsNumber 42)]; store := 0%Z |}).
Proof. reflexivity. Qed.

(** [something(21).map(x => x * 2).or(something(0))] is
    [something(42)], and from [nothing()] it is [something(0)]. *)
Example double_or_zero :
  (m <- Maybe_map (something (JsNumber 21)) (JsFunction 0) ;;
   ret (Maybe_or m (JsMaybe (something (JsNumber 0)))))
    node_realm initial_world =
    (Returned (JsMaybe (something (JsNumber 42))),
     {| calls := [(0, JsNumber 21)]; store := 0%Z |}) /\
  (m <- Maybe_map nothing (JsFunction 0) ;;
   ret (Maybe_or m (JsMaybe (something (JsNumber 0)))))
    node_realm initial_world =
    (Returned (JsMaybe (something (JsNumber 0))), initial_world).
Proof. split; reflexivity. Qed.

(** A stub handed to [inspect] is called once on [something(42)], and
    not at all on [nothing()]. *)
Example stub_called_once :
  calls (snd (Maybe_inspect (something (JsNumber 42)) (JsFunction 1)
                node_realm initial_world)) = [(1, JsNumber 42)] /\
  calls (snd (Maybe_inspect nothing (JsFunction 1)
                node_realm initial_world)) = [].
Proof. split; reflexivity. Qed.

(** * Further properties *)

Ltac unfold_methods :=
  unfold Maybe_andThen, Maybe_filter, Maybe_inspect, Maybe_isNothingOr,
    Maybe_isSomethingAnd, Maybe_map, Maybe_expect, Maybe_unwrap,
    Maybe_and, Maybe_or, Maybe_getSuccessOr,
    Result_and, Result_or, Result_andThen, Result_expect,
    Result_expectFailure, Result_inspect, Result_inspectFailure,
    Result_isFailureAnd, Result_isSuccessAnd, Result_map,
    Result_mapFailure, Result_unwrap, Result_unwrapFailure,
    Something__andThen, Something__filter, Something__inspect,
    Something__isNothingOr, Something__isSomethingAnd, Something__map,
    Something__expect, Something__unwrap, Something__and, Something__or,
    Something__getSuccessOr,
    Nothing__andThen, Nothing__filter, Nothing__inspect,
    Nothing__isNothingOr, Nothing__isSomethingAnd, Nothing__map,
    Nothing__expect, Nothing__unwrap, Nothing__and, Nothing__or,
    Nothing__getSuccessOr,
    Failure__and, Failure__or, Failure__andThen, Failure__expect,
    Failure__expectFailure, Failure__inspect, Failure__inspectFailure,
    Failure__isFailureAnd, Failure__isSuccessAnd, Failure__map,
    Failure__mapFailure, Failure__unwrap, Failure__unwrapFailure,
    Success__and, Success__or, Success__andThen, Success__expect,
    Success__expectFailure, Success__inspect, Success__inspectFailure,
    Success__isFailureAnd, Success__isSuccessAnd, Success__map,
    Success__mapFailure, Success__unwrap, Success__unwrapFailure,
    failure, success, something, nothing,
    Failure_make, Success_make, Something_make, Nothing_make,
    Nothing_instance in *.

(** Running the monad as far as it goes. *)
Ltac run :=
  repeat (progress
            (unfold_monad; simpl;
             repeat match goal with
                    | H : assert_module_loads _ = _ |- _ =>
                        progress (rewrite ?H)
                    end)).

(** Case analysis on whether [node:assert/strict] loaded. *)
Ltac case_assert realm :=
  let Hl := fresh "Hl" in
  destruct (assert_module_loads realm) eqn:Hl; run.

(** Case analysis on what each callback in the goal returns. *)
Ltac case_bodies :=
  repeat match goal with
         | |- context [function_body ?realm ?f ?x ?u] =>
             let o := fresh "o" in
             let u' := fresh "u" in
             destruct (function_body realm f x u) as [[o|o] u'];
             simpl
         end.

Section Composition.

Context {U : Type}.
Variable realm : Realm U.
Variable w : World U.

(** X1.
    [filter(p)] and then [filter(q)] is [filter(x => p(x) && q(x))]:
    the same container or the same exception, the same state of the
    callbacks, and [q] is not called when [p] said no. *)
Theorem filter_composes (m : Maybe) (p q h : nat)
    (Hh : forall y u,
        function_body realm h y u =
          and_also (function_body realm p) (function_body realm q) y u) :
  fst ((m' <- Maybe_filter m (JsFunction p) ;;
        Maybe_filter m' (JsFunction q)) realm w) =
    fst (Maybe_filter m (JsFunction h) realm w) /\
  store (snd ((m' <- Maybe_filter m (JsFunction p) ;;
               Maybe_filter m' (JsFunction q)) realm w)) =
    store (snd (Maybe_filter m (JsFunction h) realm w)).
Proof.
  destruct m as [v|]; [|split; reflexivity].
  unfold_methods. unfold_monad. rewrite Hh. unfold and_also.
  destruct (function_body realm p v (store w)) as [[a|e] u1]; simpl;
    [|split; reflexivity].
  destruct (truthy a) eqn:Ha; simpl.
  - destruct (function_body realm q v u1) as [[b|e] u2]; simpl;
      split; reflexivity.
  - rewrite Ha. split; reflexivity.
Qed.

(** X2.
    [map(f)] is [andThen] with the factory put after [f]: for [k] the
    function [x => something(f(x))], [m.andThen(k)] returns the
    container that [m.map(f)] returns, and for [k'] the function
    [x => success(f(x))], [r.andThen(k')] returns the one that
    [r.map(f)] returns; exceptions and the callbacks' state agree. *)
Theorem map_is_andThen_of_factory (m : Maybe) (r : Result) (f k k' : nat)
    (Hk : forall y u,
        function_body realm k y u =
          wrapped (fun x => JsMaybe (something x))
            (function_body realm f) y u)
    (Hk' : forall y u,
        function_body realm k' y u =
          wrapped (fun x => JsResult (success x))
            (function_body realm f) y u) :
  fst (Maybe_andThen m (JsFunction k) realm w) =
    match fst (Maybe_map m (JsFunction f) realm w) with
    | Returned m' => Returned (JsMaybe m')
    | Thrown e => Thrown e
    end /\
  store (snd (Maybe_andThen m (JsFunction k) realm w)) =
    store (snd (Maybe_map m (JsFunction f) realm w)) /\
  fst (Result_andThen r (JsFunction k') realm w) =
    match fst (Result_map r (JsFunction f) realm w) with
    | Returned r' => Returned (JsResult r')
    | Thrown e => Thrown e
    end /\
  store (snd (Result_andThen r (JsFunction k') realm w)) =
    store (snd (Result_map r (JsFunction f) realm w)).
Proof.
  assert (Hmaybe :
    fst (Maybe_andThen m (JsFunction k) realm w) =
      match fst (Maybe_map m (JsFunction f) realm w) with
      | Returned m' => Returned (JsMaybe m')
      | Thrown e => Thrown e
      end /\
    store (snd (Maybe_andThen m (JsFunction k) realm w)) =
      store (snd (Maybe_map m (JsFunction f) realm w))).
  { destruct m as [v|]; [|split; reflexivity].
    unfold_methods. unfold_monad. rewrite Hk. unfold wrapped.
    destruct (function_body realm f v (store w)) as [[y|e] u1];
      split; reflexivity. }
  destruct Hmaybe as [H1 H2]. split; [exact H1|]. split; [exact H2|].
  destruct r as [e|v].
  - unfold_methods. unfold_monad.
    case_assert realm; split; reflexivity.
  - unfold_methods. unfold_monad.
    case_assert realm; rewrite Hk';
      unfold wrapped;
      destruct (function_body realm f v (store w)) as [[y|e] u1];
      split; reflexivity.
Qed.

(** X3.
    [andThen] with the factory alone gives the receiver back:
    [m.andThen(x => something(x))] returns [m], and
    [r.andThen(x => success(x))] returns [r] when [r] is a [Success] or
    a [Failure]; the callbacks' state is as before. *)
Theorem andThen_of_factory_is_identity (m : Maybe) (r : Result)
    (k k' : nat)
    (Hk : forall y u,
        function_body realm k y u = (Returned (JsMaybe (something y)), u))
    (Hk' : forall y u,
        function_body realm k' y u = (Returned (JsResult (success y)), u)) :
  fst (Maybe_andThen m (JsFunction k) realm w) = Returned (JsMaybe m) /\
  store (snd (Maybe_andThen m (JsFunction k) realm w)) = store w /\
  fst (Result_andThen r (JsFunction k') realm w) = Returned (JsResult r) /\
  store (snd (Result_andThen r (JsFunction k') realm w)) = store w.
Proof.
  split; [|split; [|split]].
  - destruct m as [v|]; [|reflexivity].
    unfold_methods. unfold_monad. now rewrite Hk.
  - destruct m as [v|]; [|reflexivity].
    unfold_methods. unfold_monad. now rewrite Hk.
  - destruct r as [e|v]; unfold_methods; unfold_monad;
      case_assert realm;
      try rewrite Hk'; reflexivity.
  - destruct r as [e|v]; unfold_methods; unfold_monad;
      case_assert realm;
      try rewrite Hk'; reflexivity.
Qed.

(** X4.
    [map(f)] and then [map(g)] on a [Result] is [map(x => g(f(x)))];
    on a [Failure] none of the three makes a call. *)
Theorem Result_map_composes (r : Result) (f g h : nat)
    (Hh : forall y u,
        function_body realm h y u =
          composed (function_body realm f) (function_body realm g) y u) :
  fst ((r' <- Result_map r (JsFunction f) ;;
        Result_map r' (JsFunction g)) realm w) =
    fst (Result_map r (JsFunction h) realm w) /\
  store (snd ((r' <- Result_map r (JsFunction f) ;;
               Result_map r' (JsFunction g)) realm w)) =
    store (snd (Result_map r (JsFunction h) realm w)) /\
  (Result_isFailure r = true ->
   (r' <- Result_map r (JsFunction f) ;;
    Result_map r' (JsFunction g)) realm w = (Returned r, w)).
Proof.
  destruct r as [e|v].
  - unfold_methods. unfold_monad. simpl.
    case_assert realm; repeat split; reflexivity.
  - unfold_methods. unfold_monad.
    split; [|split; [|discriminate]];
      case_assert realm; rewrite Hh;
      unfold composed;
      destruct (function_body realm f v (store w)) as [[y|e] u1]; simpl;
      try reflexivity;
      destruct (function_body realm g y u1) as [[z|e] u2]; reflexivity.
Qed.

(** X5.
    [mapFailure(f)] and then [mapFailure(g)] is
    [mapFailure(e => g(f(e)))], for [f] that returns neither [null] nor
    [undefined]. *)
Theorem Result_mapFailure_composes (r : Result) (f g h : nat)
    (Hf : returns_a present realm f)
    (Hh : forall y u,
        function_body realm h y u =
          composed (function_body realm f) (function_body realm g) y u) :
  fst ((r' <- Result_mapFailure r (JsFunction f) ;;
        Result_mapFailure r' (JsFunction g)) realm w) =
    fst (Result_mapFailure r (JsFunction h) realm w) /\
  store (snd ((r' <- Result_mapFailure r (JsFunction f) ;;
               Result_mapFailure r' (JsFunction g)) realm w)) =
    store (snd (Result_mapFailure r (JsFunction h) realm w)).
Proof.
  destruct r as [e|v].
  - unfold_methods. unfold_monad.
    case_assert realm; rewrite Hh;
      unfold composed;
      (destruct (function_body realm f e (store w)) as [[y|x] u1]
         eqn:Hbody; simpl; [|split; reflexivity]).
    + pose proof (Hf _ _ _ _ Hbody) as Hy.
      assert (Hy1 : negb (String.eqb (typeof y) "undefined") = true)
        by (destruct y; try reflexivity; discriminate Hy).
      assert (Hy2 : negb (is_null y) = true)
        by (destruct y; try reflexivity; discriminate Hy).
      rewrite Hy1. run. rewrite Hy2. run.
      destruct (function_body realm g y u1) as [[z|x] u2]; run;
        try (split; reflexivity).
      destruct (negb (String.eqb (typeof z) "undefined")); run;
        try (split; reflexivity).
      destruct (negb (is_null z)); run; split; reflexivity.
    + destruct (function_body realm g y u1) as [[z|x] u2]; run;
        split; reflexivity.
  - unfold_methods. unfold_monad. simpl.
    case_assert realm; split; reflexivity.
Qed.

(** X6.
    [map(f)] and [mapFailure(g)] can be applied in either order: the
    outcome and the whole world after, the record of calls included,
    are the same. *)
Theorem map_and_mapFailure_commute (r : Result) (f g : nat) :
  (r' <- Result_map r (JsFunction f) ;;
   Result_mapFailure r' (JsFunction g)) realm w =
  (r' <- Result_mapFailure r (JsFunction g) ;;
   Result_map r' (JsFunction f)) realm w.
Proof.
  destruct r as [e|v]; unfold_methods; unfold_monad; simpl;
    case_assert realm; simpl.
  - destruct (function_body realm g e (store w)) as [[y|x] u1]; simpl;
      [|reflexivity].
    destruct (negb (String.eqb (typeof y) "undefined")); simpl;
      [|reflexivity].
    destruct (negb (is_null y)); reflexivity.
  - destruct (function_body realm g e (store w)) as [[y|x] u1];
      reflexivity.
  - destruct (function_body realm f v (store w)) as [[y|x] u1];
      reflexivity.
  - destruct (function_body realm f v (store w)) as [[y|x] u1];
      reflexivity.
Qed.

End Composition.

(** In Node.js, on [something(42)], with [x => x] and [x => x === 42]:
    both ways of filtering keep the value. *)
Lemma filter_composes_witness :
  fst ((m' <- Maybe_filter (Something (JsNumber 42)) (JsFunction 11) ;;
        Maybe_filter m' (JsFunction 2)) lab_realm initial_world) =
    fst (Maybe_filter (Something (JsNumber 42)) (JsFunction 12)
           lab_realm initial_world).
Proof.
  exact (proj1 (@filter_composes Z lab_realm initial_world
                  (Something (JsNumber 42)) 11 2 12
                  (fun y u => eq_refl))).
Defined.

Lemma map_is_andThen_of_factory_witness :
  fst (Maybe_andThen (Something (JsNumber 21)) (JsFunction 13)
         lab_realm initial_world) =
    match fst (Maybe_map (Something (JsNumber 21)) (JsFunction 0)
                 lab_realm initial_world) with
    | Returned m' => Returned (JsMaybe m')
    | Thrown e => Thrown e
    end.
Proof.
  exact (proj1 (@map_is_andThen_of_factory Z lab_realm initial_world
                  (Something (JsNumber 21)) (Success (JsNumber 21))
                  0 13 14 (fun y u => eq_refl) (fun y u => eq_refl))).
Defined.

Lemma andThen_of_factory_is_identity_witness :
  fst (Maybe_andThen (Something (JsNumber 7)) (JsFunction 10)
         lab_realm initial_world) =
    Returned (JsMaybe (Something (JsNumber 7))) /\
  fst (Result_andThen (Failure (JsString "late")) (JsFunction 3)
         lab_realm initial_world) =
    Returned (JsResult (Failure (JsString "late"))).
Proof.
  destruct (@andThen_of_factory_is_identity Z lab_realm initial_world
              (Something (JsNumber 7)) (Failure (JsString "late")) 10 3
              (fun y u => eq_refl) (fun y u => eq_refl))
    as (Hm & _ & Hr & _).
  split; [exact Hm | exact Hr].
Defined.

Lemma Result_map_composes_witness :
  fst ((r' <- Result_map (Success (JsNumber 21)) (JsFunction 0) ;;
        Result_map r' (JsFunction 4)) node_realm initial_world) =
    fst (Result_map (Success (JsNumber 21)) (JsFunction 5)
           node_realm initial_world).
Proof.
  exact (proj1 (@Result_map_composes Z node_realm initial_world
                  (Success (JsNumber 21)) 0 4 5 (fun y u => eq_refl))).
Defined.

(** Function 15 returns a string, which is there. *)
Lemma function_15_returns_present : returns_a present lab_realm 15.
Proof.
  intros arg u r u' Hbody. simpl in Hbody.
  injection Hbody as Hr _. now subst r.
Qed.

Lemma Result_mapFailure_composes_witness :
  fst ((r' <- Result_mapFailure (Failure (JsString "late"))
                (JsFunction 15) ;;
        Result_mapFailure r' (JsFunction 3)) lab_realm initial_world) =
    fst (Result_mapFailure (Failure (JsString "late")) (JsFunction 16)
           lab_realm initial_world).
Proof.
  exact (proj1 (@Result_mapFailure_composes Z lab_realm initial_world
                  (Failure (JsString "late")) 15 3 16
                  function_15_returns_present (fun y u => eq_refl))).
Defined.

(** Without the condition on [f] the two differ, in Node.js: with the
    stub for [f], [mapFailure(f)] throws at once, while
    [mapFailure(e => g(f(e)))] returns a [Failure] when [g] is
    [x => success(x)]. *)
Example mapFailure_chain_stops_at_absent_error :
  fst ((r' <- Result_mapFailure (Failure (JsString "late"))
                (JsFunction 1) ;;
        Result_mapFailure r' (JsFunction 3)) lab_realm initial_world) =
    Thrown AssertionError /\
  fst (function_body lab_realm 3 JsUndefined 0%Z) =
    Returned (JsResult (Success JsUndefined)).
Proof. split; reflexivity. Qed.

Section Validation.

Context {U : Type}.
Variable realm : Realm U.
Variable w : World U.

(** X7.
    Where [node:assert/strict] loads, every public method of [Result]
    that takes an argument checks it before it looks at the receiver:
    on a [Success] and on a [Failure] alike, [and] and [or] throw
    [AssertionError] for an argument that is not a [Result], [expect]
    and [expectFailure] for a message that is not a string, and the
    seven methods that take a callback for an argument that is not a
    function.  Nothing is called and the world stays as it was. *)
Theorem Result_checks_arguments_first (r : Result) (x msg a : js_value)
    (Hloads : assert_module_loads realm = true)
    (Hx : isResult x = false)
    (Hmsg : String.eqb (typeof msg) "string" = false)
    (Ha : String.eqb (typeof a) "function" = false) :
  Result_and r x realm w = (Thrown AssertionError, w) /\
  Result_or r x realm w = (Thrown AssertionError, w) /\
  Result_expect r msg realm w = (Thrown AssertionError, w) /\
  Result_expectFailure r msg realm w = (Thrown AssertionError, w) /\
  Result_andThen r a realm w = (Thrown AssertionError, w) /\
  Result_inspect r a realm w = (Thrown AssertionError, w) /\
  Result_inspectFailure r a realm w = (Thrown AssertionError, w) /\
  Result_isFailureAnd r a realm w = (Thrown AssertionError, w) /\
  Result_isSuccessAnd r a realm w = (Thrown AssertionError, w) /\
  Result_map r a realm w = (Thrown AssertionError, w) /\
  Result_mapFailure r a realm w = (Thrown AssertionError, w).
Proof.
  unfold Result_and, Result_or, Result_expect, Result_expectFailure,
    Result_andThen, Result_inspect, Result_inspectFailure,
    Result_isFailureAnd, Result_isSuccessAnd, Result_map,
    Result_mapFailure.
  rewrite Hx, Hmsg, Ha. unfold bind, assert, node_assert_ok, throw.
  rewrite Hloads. repeat split.
Qed.

(** X8.
    [Maybe] makes no check of its own.  On [nothing()] every method but
    [getSuccessOr] takes any argument at all and answers as for a
    well-typed one, and [expect] throws the message as it is.  On a
    [Something], [and], [or], [expect] and [getSuccessOr] take
    anything, and the six methods that call their argument throw the
    [TypeError] of the call when it is not a function.  The one check a
    method of [Maybe] runs into is that of [failure], to which
    [nothing().getSuccessOr(x)] hands [x]: it throws [AssertionError]
    for [null] and [undefined] where [node:assert/strict] loads. *)
Theorem Maybe_checks_nothing_of_its_own (v x msg a : js_value)
    (Ha : String.eqb (typeof a) "function" = false) :
  Maybe_and nothing x = JsMaybe nothing /\
  Maybe_or nothing x = x /\
  Maybe_expect nothing msg realm w = (Thrown (ExpectationError msg), w) /\
  Maybe_andThen nothing a realm w = (Returned (JsMaybe nothing), w) /\
  Maybe_filter nothing a realm w = (Returned nothing, w) /\
  Maybe_inspect nothing a realm w = (Returned nothing, w) /\
  Maybe_isNothingOr nothing a realm w = (Returned (JsBoolean true), w) /\
  Maybe_isSomethingAnd nothing a realm w = (Returned (JsBoolean false), w) /\
  Maybe_map nothing a realm w = (Returned nothing, w) /\
  Maybe_getSuccessOr nothing x realm w =
    (if assert_module_loads realm && absent x
     then (Thrown AssertionError, w)
     else (Returned (Failure x), w)) /\
  Maybe_and (something v) x = x /\
  Maybe_or (something v) x = JsMaybe (something v) /\
  Maybe_expect (something v) msg realm w = (Returned v, w) /\
  Maybe_getSuccessOr (something v) x realm w = (Returned (Success v), w) /\
  Maybe_andThen (something v) a realm w = (Thrown TypeError, w) /\
  Maybe_filter (something v) a realm w = (Thrown TypeError, w) /\
  Maybe_inspect (something v) a realm w = (Thrown TypeError, w) /\
  Maybe_isNothingOr (something v) a realm w = (Thrown TypeError, w) /\
  Maybe_isSomethingAnd (something v) a realm w = (Thrown TypeError, w) /\
  Maybe_map (something v) a realm w = (Thrown TypeError, w).
Proof.
  assert (Hfailure :
    Maybe_getSuccessOr nothing x realm w =
      (if assert_module_loads realm && absent x
       then (Thrown AssertionError, w)
       else (Returned (Failure x), w)))
    by apply failure_in_every_host.
  destruct a; try discriminate Ha; repeat split; exact Hfailure.
Qed.

(** X9.
    Where [node:assert/strict] loads, what the checked methods return
    has the documented type whatever the callback is: [andThen] returns
    nothing but a [Result], and [isSuccessAnd] and [isFailureAnd]
    nothing but a boolean. *)
Theorem checked_return_types (r : Result) (a : js_value)
    (Hloads : assert_module_loads realm = true) :
  returns_only isResult (Result_andThen r a) realm w /\
  returns_only is_boolean (Result_isSuccessAnd r a) realm w /\
  returns_only is_boolean (Result_isFailureAnd r a) realm w.
Proof.
  unfold returns_only.
  destruct r as [e|v]; destruct a; unfold_methods; run;
    repeat split; try exact I; try reflexivity;
    match goal with
    | |- context [function_body realm ?f ?x ?u] =>
        destruct (function_body realm f x u) as [[y|y] u1]
    end; run; try exact I;
    destruct y; run; try exact I; reflexivity.
Qed.

(** X10.
    The predicates of [Maybe] are not checked: when the predicate
    returns [y] on the payload, [isSomethingAnd] and [isNothingOr]
    return [y] as it is, boolean or not, and [filter] keeps the value
    exactly when [y] is truthy. *)
Theorem Maybe_predicates_by_truthiness (v y : js_value) (p : nat) (u : U)
    (Hbody : function_body realm p v (store w) = (Returned y, u)) :
  fst (Maybe_isSomethingAnd (something v) (JsFunction p) realm w) =
    Returned y /\
  fst (Maybe_isNothingOr (something v) (JsFunction p) realm w) =
    Returned y /\
  fst (Maybe_filter (something v) (JsFunction p) realm w) =
    Returned (if truthy y then something v else nothing).
Proof.
  unfold_methods. unfold_monad. rewrite Hbody. repeat split.
Qed.

End Validation.

Section Discipline.

Context {U : Type}.
Variable realm : Realm U.
Variable w : World U.

(** X11.
    Where [node:assert/strict] loads, the library never builds a
    [Failure] around [null] or [undefined]: what [failure] and
    [getSuccessOr] return has its error, and [map], [mapFailure],
    [inspect] and [inspectFailure] return such a [Result] when the
    receiver is one, whatever the callback does; so [getFailure()] of
    such a [Result] never holds [null] or [undefined]. *)
Theorem error_present_is_kept (r : Result) (m : Maybe) (e a : js_value)
    (Hloads : assert_module_loads realm = true)
    (Hr : error_present r = true) :
  returns_only error_present (failure e) realm w /\
  returns_only error_present (Maybe_getSuccessOr m e) realm w /\
  returns_only error_present (Result_map r a) realm w /\
  returns_only error_present (Result_mapFailure r a) realm w /\
  returns_only error_present (Result_inspect r a) realm w /\
  returns_only error_present (Result_inspectFailure r a) realm w /\
  match Result_getFailure r with
  | Something error => present error = true
  | Nothing => True
  end.
Proof.
  unfold returns_only.
  split; [destruct e; unfold_methods; run; first [exact I | reflexivity]|].
  split; [destruct m; destruct e; unfold_methods; run;
          first [exact I | reflexivity]|].
  destruct r as [e0|v]; destruct a; unfold_methods; run;
    repeat split; try exact I; try exact Hr; try reflexivity;
    match goal with
    | |- context [function_body realm ?f ?x ?u] =>
        destruct (function_body realm f x u) as [[y|y] u1]
    end; run; try exact I; try exact Hr; try reflexivity;
    destruct y; run; first [exact I | reflexivity].
Qed.

(** X12.
    [and] is conjunction and [or] is disjunction, on [Result]s and on
    [Maybe]s: [a.and(b)] is a [Success] exactly when both are and
    [a.or(b)] exactly when one is, and likewise for [Something]; and
    what is returned has the variant and the payload of [a] or those of
    [b]. *)
Theorem and_or_of_containers (a b : Result) (m n : Maybe) :
  (exists c, Result_and a (JsResult b) realm w = (Returned (JsResult c), w)
             /\ Result_isSuccess c = Result_isSuccess a && Result_isSuccess b
             /\ (c = a \/ c = b)) /\
  (exists c, Result_or a (JsResult b) realm w = (Returned (JsResult c), w)
             /\ Result_isSuccess c = Result_isSuccess a || Result_isSuccess b
             /\ (c = a \/ c = b)) /\
  (exists c, Maybe_and m (JsMaybe n) = JsMaybe c
             /\ Maybe_isSomething c = Maybe_isSomething m && Maybe_isSomething n
             /\ (c = m \/ c = n)) /\
  (exists c, Maybe_or m (JsMaybe n) = JsMaybe c
             /\ Maybe_isSomething c = Maybe_isSomething m || Maybe_isSomething n
             /\ (c = m \/ c = n)).
Proof.
  split; [|split; [|split]].
  - rewrite Result_and_result. destruct a; eexists; split;
      try reflexivity; split; auto; destruct b; reflexivity.
  - rewrite Result_or_result. destruct a; eexists; split;
      try reflexivity; split; auto; destruct b; reflexivity.
  - destruct m; eexists; split; try reflexivity; split; auto;
      destruct n; reflexivity.
  - destruct m; eexists; split; try reflexivity; split; auto;
      destruct n; reflexivity.
Qed.

(** X13.
    A method makes one call at most, on the payload, and leaves the
    world otherwise as it was: for every receiver and every argument,
    in every host, the world after a method of [Maybe] or [Result] that
    takes a callback is the world after the one call of that callback
    on the payload, when the receiver is of the variant the method acts
    on and the argument is a function, and the world before otherwise. *)
Theorem one_call_on_the_payload (m : Maybe) (r : Result) (a : js_value) :
  let after payload := world_after_calls realm w (call_of payload a) in
  snd (Maybe_andThen m a realm w) = after (Maybe_payload m) /\
  snd (Maybe_filter m a realm w) = after (Maybe_payload m) /\
  snd (Maybe_inspect m a realm w) = after (Maybe_payload m) /\
  snd (Maybe_isNothingOr m a realm w) = after (Maybe_payload m) /\
  snd (Maybe_isSomethingAnd m a realm w) = after (Maybe_payload m) /\
  snd (Maybe_map m a realm w) = after (Maybe_payload m) /\
  snd (Result_andThen r a realm w) = after (Success_payload r) /\
  snd (Result_inspect r a realm w) = after (Success_payload r) /\
  snd (Result_isSuccessAnd r a realm w) = after (Success_payload r) /\
  snd (Result_map r a realm w) = after (Success_payload r) /\
  snd (Result_inspectFailure r a realm w) = after (Failure_payload r) /\
  snd (Result_isFailureAnd r a realm w) = after (Failure_payload r) /\
  snd (Result_mapFailure r a realm w) = after (Failure_payload r).
Proof.
  cbv zeta. unfold world_after_calls, world_after_call.
  destruct m as [v|]; destruct r as [e0|v0]; destruct a;
    unfold_methods; simpl; case_assert realm;
    repeat split;
    repeat match goal with
           | |- context [function_body realm ?f ?x ?u] =>
               destruct (function_body realm f x u) as [[y|y] u1]; run;
               try reflexivity
           end;
    try (destruct y; run; reflexivity).
Qed.

End Discipline.

(** In Node.js: [failure("late").and(42)], [success(1).expect(42)] and
    [failure("late").map("f")] throw [AssertionError], though the
    receiver alone would decide the answer. *)
Lemma Result_checks_arguments_first_witness :
  Result_and (Failure (JsString "late")) (JsNumber 42)
    lab_realm initial_world = (Thrown AssertionError, initial_world) /\
  Result_expect (Success (JsNumber 1)) (JsNumber 42)
    lab_realm initial_world = (Thrown AssertionError, initial_world) /\
  Result_map (Failure (JsString "late")) (JsString "f")
    lab_realm initial_world = (Thrown AssertionError, initial_world).
Proof.
  destruct (@Result_checks_arguments_first Z lab_realm initial_world
              (Failure (JsString "late")) (JsNumber 42) (JsNumber 42)
              (JsString "f") eq_refl eq_refl eq_refl eq_refl)
    as (Hand & _ & _ & _ & _ & _ & _ & _ & _ & Hmap & _).
  destruct (@Result_checks_arguments_first Z lab_realm initial_world
              (Success (JsNumber 1)) (JsNumber 42) (JsNumber 42)
              (JsString "f") eq_refl eq_refl eq_refl eq_refl)
    as (_ & _ & Hexpect & _).
  split; [exact Hand|]. split; [exact Hexpect | exact Hmap].
Defined.

(** In Node.js: [nothing().map(42)] returns, [something(1).map(42)]
    throws [TypeError], and [nothing().getSuccessOr(null)] throws
    [AssertionError]. *)
Lemma Maybe_checks_nothing_of_its_own_witness :
  Maybe_map nothing (JsNumber 42) lab_realm initial_world =
    (Returned nothing, initial_world) /\
  Maybe_map (something (JsNumber 1)) (JsNumber 42)
    lab_realm initial_world = (Thrown TypeError, initial_world) /\
  Maybe_getSuccessOr nothing JsNull lab_realm initial_world =
    (Thrown AssertionError, initial_world).
Proof.
  destruct (@Maybe_checks_nothing_of_its_own Z lab_realm initial_world
              (JsNumber 1) JsNull JsNull (JsNumber 42) eq_refl)
    as (_ & _ & _ & _ & _ & _ & _ & _ & Hnothing & Hfailure &
        _ & _ & _ & _ & _ & _ & _ & _ & _ & Hsomething).
  split; [exact Hnothing|]. split; [exact Hsomething | exact Hfailure].
Defined.

(** In Node.js, with [x => x * 2], which returns a number:
    [isSuccessAnd] does not return it. *)
Lemma checked_return_types_witness :
  returns_only is_boolean
    (Result_isSuccessAnd (Success (JsNumber 1)) (JsFunction 0))
    lab_realm initial_world.
Proof.
  exact (proj1 (proj2 (@checked_return_types Z lab_realm initial_world
                         (Success (JsNumber 1)) (JsFunction 0) eq_refl))).
Defined.

(** In Node.js, with [x => x]: [something(0).filter(x => x)] is
    [nothing()], as 0 is not truthy. *)
Lemma Maybe_predicates_by_truthiness_witness :
  fst (Maybe_filter (something (JsNumber 0)) (JsFunction 11)
         lab_realm initial_world) = Returned nothing.
Proof.
  exact (proj2 (proj2 (@Maybe_predicates_by_truthiness Z lab_realm
                         initial_world (JsNumber 0) (JsNumber 0) 11 0%Z
                         eq_refl))).
Defined.

Lemma error_present_is_kept_witness :
  returns_only error_present
    (Result_mapFailure (Failure (JsString "late")) (JsFunction 1))
    lab_realm initial_world.
Proof.
  destruct (@error_present_is_kept Z lab_realm initial_world
              (Failure (JsString "late")) Nothing JsNull (JsFunction 1)
              eq_refl eq_refl)
    as (_ & _ & _ & H & _).
  exact H.
Defined.

(** ** More on the rendering of the payload *)

Section PayloadRendering.

Context {U : Type}.
Variable realm : Realm U.
Variable w : World U.

(** X14.
    White space in front of what the stringifier returns is lost: the
    payload's rendering goes into the block without it, so the text
    after [value: ] or [error: ] never starts with white space, and a
    stringifier and the same one trimmed at the start render alike. *)
Theorem rendering_drops_leading_white_space (s : string) (v e : js_value)
    (toStringFunction : js_value -> string) :
  indented (trimStart s) = indented s /\
  flush_left (indented s) = true /\
  Result_convertToString (Success v)
    (fun x => trimStart (toStringFunction x)) realm w =
    Result_convertToString (Success v) toStringFunction realm w /\
  Result_convertToString (Failure e)
    (fun x => trimStart (toStringFunction x)) realm w =
    Result_convertToString (Failure e) toStringFunction realm w.
Proof.
  split; [apply indented_trimStart|].
  split; [apply flush_left_trimStart|].
  split.
  - rewrite !Result_convertToString_success. now rewrite indented_trimStart.
  - rewrite !Result_convertToString_failure. now rewrite indented_trimStart.
Qed.



End PayloadRendering.


(** In a host without [node:util] for the hook, [success(42)] is shown
    with nothing for its value. *)
Example inspect_custom_without_util :
  Result_inspect_custom (Success (JsNumber 42))
    realm_without_util initial_world =
    (Returned ("Result{" ++ String LF "  Success{" ++
               String LF "    value: ," ++
               String LF "  }" ++ String LF "}"),
     initial_world).
Proof. reflexivity. Qed.

(** Leading white space of a string payload is not shown. *)
Example success_of_padded_string_toString :
  Result_toString (success (JsString "   padded")) node_realm initial_world =
    Result_toString (success (JsString "padded")) node_realm initial_world.
Proof. reflexivity. Qed.

Section Conversion.

Context {U : Type}.
Variable realm : Realm U.
Variable w : World U.

(** X17.
    [getSuccess()] and [getFailure()] take a [Result] apart: exactly one
    of the two is a [Something], and it holds the payload.  Putting it
    back together gives the [Result] again: [getSuccess()] of a
    [Success] followed by [getSuccessOr] with any error, and
    [getSuccess()] of a [Failure] followed by [getSuccessOr] with the
    error of the [Failure], when that error is there. *)
Theorem Result_to_Maybe_and_back (r : Result) (v e x : js_value)
    (He : present e = true) :
  Maybe_isSomething (Result_getSuccess r) = Result_isSuccess r /\
  Maybe_isSomething (Result_getFailure r) = Result_isFailure r /\
  Result_isFailure r = negb (Result_isSuccess r) /\
  Result_getSuccess (Success v) = Something v /\
  Result_getFailure (Failure e) = Something e /\
  Maybe_getSuccessOr (Result_getSuccess (Success v)) x realm w =
    (Returned (Success v), w) /\
  Maybe_getSuccessOr (Result_getSuccess (Failure e)) e realm w =
    (Returned (Failure e), w).
Proof.
  split; [destruct r; reflexivity|].
  split; [destruct r; reflexivity|].
  split; [destruct r; reflexivity|].
  split; [reflexivity|]. split; [reflexivity|]. split; [reflexivity|].
  unfold Result_getSuccess, Failure__getSuccess, nothing, Nothing_make,
    Nothing_instance, Maybe_getSuccessOr, Nothing__getSuccessOr.
  apply failure_present. unfold present in He.
  now apply negb_true_iff in He.
Qed.

(** X18.
    Where [node:assert/strict] could not be imported, [Result] checks
    as little as [Maybe]: [and] and [or] take anything, [expect] and
    [expectFailure] throw a message of any type as it is, each of the
    seven methods that take a callback fails with the [TypeError] of
    the call when handed something that is not a function, and only on
    the variant that calls it, and [andThen], [isSuccessAnd] and
    [isFailureAnd] return, and [mapFailure] wraps, whatever the callback
    returned. *)
Theorem Result_unchecked_without_assert (v e x msg a y : js_value)
    (p : nat) (u : U)
    (Hloads : assert_module_loads realm = false)
    (Ha : String.eqb (typeof a) "function" = false)
    (Hv : function_body realm p v (store w) = (Returned y, u))
    (He : function_body realm p e (store w) = (Returned y, u)) :
  Result_and (Success v) x realm w = (Returned x, w) /\
  Result_and (Failure e) x realm w = (Returned (JsResult (Failure e)), w) /\
  Result_or (Failure e) x realm w = (Returned x, w) /\
  Result_or (Success v) x realm w = (Returned (JsResult (Success v)), w) /\
  Result_expect (Failure e) msg realm w =
    (Thrown (ExpectationError msg), w) /\
  Result_expect (Success v) msg realm w = (Returned v, w) /\
  Result_expectFailure (Success v) msg realm w =
    (Thrown (ExpectationError msg), w) /\
  Result_expectFailure (Failure e) msg realm w = (Returned e, w) /\
  Result_andThen (Success v) a realm w = (Thrown TypeError, w) /\
  Result_andThen (Failure e) a realm w =
    (Returned (JsResult (Failure e)), w) /\
  Result_inspect (Success v) a realm w = (Thrown TypeError, w) /\
  Result_inspect (Failure e) a realm w = (Returned (Failure e), w) /\
  Result_inspectFailure (Failure e) a realm w = (Thrown TypeError, w) /\
  Result_inspectFailure (Success v) a realm w =
    (Returned (Success v), w) /\
  Result_isSuccessAnd (Success v) a realm w = (Thrown TypeError, w) /\
  Result_isSuccessAnd (Failure e) a realm w =
    (Returned (JsBoolean false), w) /\
  Result_isFailureAnd (Failure e) a realm w = (Thrown TypeError, w) /\
  Result_isFailureAnd (Success v) a realm w =
    (Returned (JsBoolean false), w) /\
  Result_map (Success v) a realm w = (Thrown TypeError, w) /\
  Result_map (Failure e) a realm w = (Returned (Failure e), w) /\
  Result_mapFailure (Failure e) a realm w = (Thrown TypeError, w) /\
  Result_mapFailure (Success v) a realm w = (Returned (Success v), w) /\
  fst (Result_andThen (Success v) (JsFunction p) realm w) = Returned y /\
  fst (Result_isSuccessAnd (Success v) (JsFunction p) realm w) =
    Returned y /\
  fst (Result_isFailureAnd (Failure e) (JsFunction p) realm w) =
    Returned y /\
  fst (Result_mapFailure (Failure e) (JsFunction p) realm w) =
    Returned (Failure y).
Proof.
  unfold_methods. unfold_monad. rewrite Hloads. simpl.
  rewrite Hv, He. destruct a; try discriminate Ha; repeat split.
Qed.

End Conversion.

Lemma Result_to_Maybe_and_back_witness :
  Maybe_getSuccessOr (Result_getSuccess (Failure (JsString "late")))
    (JsString "late") lab_realm initial_world =
    (Returned (Failure (JsString "late")), initial_world).
Proof.
  destruct (@Result_to_Maybe_and_back Z lab_realm initial_world
              (Success JsNull) JsNull (JsString "late") JsNull eq_refl)
    as (_ & _ & _ & _ & _ & _ & H).
  exact H.
Defined.

(** In the host without [node:assert/strict], with the stub, which
    returns [undefined]: [success(1).isSuccessAnd(stub)] returns
    [undefined], and [failure("late").mapFailure(stub)] returns a
    [Failure] of [undefined]. *)
Lemma Result_unchecked_without_assert_witness :
  fst (Result_isSuccessAnd (Success (JsNumber 1)) (JsFunction 1)
         realm_without_assert initial_world) = Returned JsUndefined /\
  fst (Result_mapFailure (Failure (JsString "late")) (JsFunction 1)
         realm_without_assert initial_world) =
    Returned (Failure JsUndefined) /\
  Result_andThen (Success (JsNumber 1)) JsNull
    realm_without_assert initial_world = (Thrown TypeError, initial_world).
Proof.
  destruct (@Result_unchecked_without_assert Z realm_without_assert
              initial_world (JsNumber 1) (JsString "late") JsNull
              (JsNumber 0) JsNull JsUndefined 1 0%Z
              eq_refl eq_refl eq_refl eq_refl)
    as (_ & _ & _ & _ & _ & _ & _ & _ & Hthen & _ & _ & _ & _ & _ &
        _ & _ & _ & _ & _ & _ & _ & _ & _ & Hpred & _ & Hmap).
  split; [exact Hpred|]. split; [exact Hmap | exact Hthen].
Defined.
